(** * football: a client of the football-data.org REST API (v1)

  Shallow embedding of [football/football.py]: the [LEAGUE_CODE] table, the
  [Football] class with its nine public methods and the private URL builder
  [_generate_url], together with the three library facilities the class
  relies on ([re.compile(p).match], [urllib.parse.urlencode] and
  [urllib.parse.urljoin]).

  Conventions.
  - A Python [str] is a [string]; each [ascii] is one code point below 256.
    In that range the only characters of Unicode category Nd, which is what
    [\d] matches on [str] patterns, are the ten digits 0-9.
  - Argument values are the scalars [None], [bool], [int] and [str].
  - A method runs in a state and error monad over the process state: the
    module global [LEAGUE_CODE], the remote service, and the list of HTTP
    GET requests issued so far. *)

From Stdlib Require Import ZArith List String Ascii Bool Lia.
From Stdlib Require Import DecimalString.
Import ListNotations.

Open Scope string_scope.
Open Scope bool_scope.

Set Warnings "-register-all".

(* ===================================================================== *)
(** ** Python string primitives *)
(* ===================================================================== *)

Module Str.

(** [c in s] *)
Fixpoint contains (c : ascii) (s : string) : bool :=
  match s with
  | "" => false
  | String a s' => Ascii.eqb a c || contains c s'
  end.

(** [s.split(c, 1)] when [c in s]: the text before and after the first
    occurrence of [c]; [None] when [c] does not occur. *)
Fixpoint cut (c : ascii) (s : string) : option (string * string) :=
  match s with
  | "" => None
  | String a s' =>
      if Ascii.eqb a c then Some ("", s')
      else match cut c s' with
           | Some (l, r) => Some (String a l, r)
           | None => None
           end
  end.

(** [s.split(c)]: never the empty list. *)
Fixpoint split (c : ascii) (s : string) : list string :=
  match s with
  | "" => [""]
  | String a s' =>
      if Ascii.eqb a c then "" :: split c s'
      else match split c s' with
           | x :: xs => String a x :: xs
           | [] => [String a ""]
           end
  end.

(** [sep.join(l)] *)
Fixpoint join (sep : string) (l : list string) : string :=
  match l with
  | [] => ""
  | [x] => x
  | x :: xs => x ++ sep ++ join sep xs
  end.

(** [s.replace(c, "")] for each [c] satisfying [p] *)
Fixpoint remove (p : ascii -> bool) (s : string) : string :=
  match s with
  | "" => ""
  | String a s' => if p a then remove p s' else String a (remove p s')
  end.

(** [s.lstrip(chars)] with [chars] given as a predicate *)
Fixpoint lstrip (p : ascii -> bool) (s : string) : string :=
  match s with
  | "" => ""
  | String a s' => if p a then lstrip p s' else s
  end.

Definition forall_chars (p : ascii -> bool) (s : string) : bool :=
  forallb p (list_ascii_of_string s).

Definition between (lo hi c : ascii) : bool :=
  (Ascii.leb lo c && Ascii.leb c hi).

Definition is_digit (c : ascii) : bool := between "0" "9" c.
Definition is_lower (c : ascii) : bool := between "a" "z" c.
Definition is_upper (c : ascii) : bool := between "A" "Z" c.
Definition is_alpha (c : ascii) : bool := is_lower c || is_upper c.
Definition is_alnum (c : ascii) : bool := is_alpha c || is_digit c.

(** [c.lower()] on the ASCII letters *)
Definition lower_char (c : ascii) : ascii :=
  if is_upper c then ascii_of_nat (nat_of_ascii c + 32) else c.

Fixpoint lower (s : string) : string :=
  match s with
  | "" => ""
  | String a s' => String (lower_char a) (lower s')
  end.

(** [s[:1] == "/"] and the like: [s.startswith(p)] *)
Fixpoint starts_with (p s : string) : bool :=
  match p with
  | "" => true
  | String a p' =>
      match s with
      | String b s' => Ascii.eqb a b && starts_with p' s'
      | "" => false
      end
  end.

(** [str(z)] for an [int] *)
Definition of_Z (z : Z) : string := NilZero.string_of_int (Z.to_int z).

End Str.

(* ===================================================================== *)
(** ** [re]: the patterns the class compiles, and [Pattern.match] *)
(* ===================================================================== *)

Module Re.

Inductive regex : Type :=
| Void                          (* matches nothing; only arises in derivatives *)
| Eps                           (* the empty pattern *)
| Chr (c : ascii)               (* a literal character *)
| Digit                         (* \d *)
| Range (lo hi : ascii)         (* [lo-hi] *)
| Cat (r1 r2 : regex)           (* r1 r2 *)
| Alt (r1 r2 : regex)           (* r1|r2 *)
| Star (r : regex).             (* r* *)

(** [r+] *)
Definition Plus (r : regex) : regex := Cat r (Star r).

(** [r{0,k}] *)
Fixpoint upto (r : regex) (k : nat) : regex :=
  match k with
  | O => Eps
  | S k' => Alt Eps (Cat r (upto r k'))
  end.

(** [r{m}] followed by [rest] *)
Fixpoint times (r : regex) (m : nat) (rest : regex) : regex :=
  match m with
  | O => rest
  | S m' => Cat r (times r m' rest)
  end.

(** [r{m,n}] *)
Definition Repeat (r : regex) (m n : nat) : regex := times r m (upto r (n - m)).

(** The words a pattern denotes. *)
Inductive matches : regex -> string -> Prop :=
| MEps : matches Eps ""
| MChr c : matches (Chr c) (String c "")
| MDigit c : Str.is_digit c = true -> matches Digit (String c "")
| MRange lo hi c : Str.between lo hi c = true -> matches (Range lo hi) (String c "")
| MCat r1 r2 s1 s2 : matches r1 s1 -> matches r2 s2 -> matches (Cat r1 r2) (s1 ++ s2)
| MAltL r1 r2 s : matches r1 s -> matches (Alt r1 r2) s
| MAltR r1 r2 s : matches r2 s -> matches (Alt r1 r2) s
| MStar0 r : matches (Star r) ""
| MStarS r s1 s2 : matches r s1 -> matches (Star r) s2 -> matches (Star r) (s1 ++ s2).

Fixpoint nullable (r : regex) : bool :=
  match r with
  | Void => false
  | Eps => true
  | Chr _ | Digit | Range _ _ => false
  | Cat r1 r2 => nullable r1 && nullable r2
  | Alt r1 r2 => nullable r1 || nullable r2
  | Star _ => true
  end.

Definition cat (r1 r2 : regex) : regex :=
  match r1, r2 with
  | Void, _ => Void
  | _, Void => Void
  | Eps, _ => r2
  | _, _ => Cat r1 r2
  end.

Definition alt (r1 r2 : regex) : regex :=
  match r1, r2 with
  | Void, _ => r2
  | _, Void => r1
  | _, _ => Alt r1 r2
  end.

Definition atom (b : bool) : regex := if b then Eps else Void.

(** Brzozowski derivative: what is left of [r] after reading [c]. *)
Fixpoint deriv (c : ascii) (r : regex) : regex :=
  match r with
  | Void | Eps => Void
  | Chr a => atom (Ascii.eqb a c)
  | Digit => atom (Str.is_digit c)
  | Range lo hi => atom (Str.between lo hi c)
  | Cat r1 r2 =>
      if nullable r1 then alt (cat (deriv c r1) r2) (deriv c r2)
      else cat (deriv c r1) r2
  | Alt r1 r2 => alt (deriv c r1) (deriv c r2)
  | Star r1 => cat (deriv c r1) (Star r1)
  end.

(** [bool(re.compile(r).match(s))]: [match] anchors at the start of [s]
    only, so it succeeds as soon as some prefix of [s] is a word of [r]. *)
Fixpoint re_match (r : regex) (s : string) : bool :=
  nullable r ||
  match s with
  | "" => false
  | String c s' => re_match (deriv c r) s'
  end.

End Re.

(* ===================================================================== *)
(** ** [urllib.parse]: [urlencode] and [urljoin] *)
(* ===================================================================== *)

Module UrlLib.

(** *** [urlencode] of a mapping with [str] keys and values

    Every key and value goes through [quote_plus] with no extra safe
    characters: letters, digits and [_.-~] stay, a space becomes [+], and any
    other character is replaced by [%XX] for each byte of its UTF-8 form. *)

Definition always_safe (c : ascii) : bool :=
  Str.is_alnum c || Str.contains c "_.-~".

Definition hex_digit (n : nat) : ascii :=
  match String.get n "0123456789ABCDEF" with
  | Some a => a
  | None => "0"%char
  end.

Definition percent (byte : nat) : string :=
  String "%" (String (hex_digit (byte / 16)%nat) (String (hex_digit (byte mod 16)%nat) "")).

Definition utf8 (c : ascii) : list nat :=
  let n := nat_of_ascii c in
  if (n <? 128)%nat then [n] else [192 + n / 64; 128 + n mod 64]%nat.

Definition quote_char (c : ascii) : string :=
  if always_safe c then String c ""
  else if Ascii.eqb c " " then "+"
  else String.concat "" (map percent (utf8 c)).

Fixpoint quote_plus (s : string) : string :=
  match s with
  | "" => ""
  | String c s' => quote_char c ++ quote_plus s'
  end.

Definition urlencode (query : list (string * string)) : string :=
  Str.join "&" (map (fun kv => quote_plus (fst kv) ++ "=" ++ quote_plus (snd kv)) query).

(** *** [urlsplit], [urlparse], [urlunparse]

    The validation of a network location (a malformed IPv6 literal, an NFKC
    check of a non-ASCII host), which raises [ValueError] in the library, is
    left out: it only concerns references that carry a network location. *)

Record ParseResult : Type := mkParse {
  scheme : string;
  netloc : string;
  path : string;
  params : string;
  query : string;
  fragment : string
}.

Definition uses_relative : list string :=
  [""; "ftp"; "http"; "gopher"; "nntp"; "imap"; "wais"; "file"; "https";
   "shttp"; "mms"; "prospero"; "rtsp"; "rtspu"; "sftp"; "svn"; "svn+ssh";
   "ws"; "wss"].

Definition uses_netloc : list string :=
  [""; "ftp"; "http"; "gopher"; "nntp"; "telnet"; "imap"; "wais"; "file";
   "mms"; "https"; "shttp"; "snews"; "prospero"; "rtsp"; "rtspu"; "rsync";
   "svn"; "svn+ssh"; "sftp"; "nfs"; "git"; "git+ssh"; "ws"; "wss"].

Definition uses_params : list string :=
  [""; "ftp"; "hdl"; "prospero"; "http"; "imap"; "https"; "shttp"; "rtsp";
   "rtspu"; "sip"; "sips"; "mms"; "sftp"; "tel"].

Definition mem (s : string) (l : list string) : bool := existsb (String.eqb s) l.

Definition c0_control_or_space (c : ascii) : bool := (nat_of_ascii c <=? 32)%nat.

(** tab, carriage return, line feed *)
Definition unsafe_byte (c : ascii) : bool :=
  let n := nat_of_ascii c in ((n =? 9) || (n =? 13) || (n =? 10))%nat.

Definition scheme_char (c : ascii) : bool :=
  Str.is_alnum c || Str.contains c "+-.".

Definition first_is_alpha (s : string) : bool :=
  match s with
  | "" => false
  | String a _ => Str.is_alpha a
  end.

(** The scheme of [url] when it has one, else [default]; and the rest. *)
Definition split_scheme (url default : string) : string * string :=
  match Str.cut ":" url with
  | Some (pre, rest) =>
      if negb (pre =? "") && first_is_alpha pre && Str.forall_chars scheme_char pre
      then (Str.lower pre, rest)
      else (default, url)
  | None => (default, url)
  end.

(** [_splitnetloc]: the text up to the first of [/?#], and what follows. *)
Fixpoint splitnetloc (s : string) : string * string :=
  match s with
  | "" => ("", "")
  | String a s' =>
      if Str.contains a "/?#" then ("", s)
      else let (n, r) := splitnetloc s' in (String a n, r)
  end.

Definition cut_or (c : ascii) (s : string) : string * string :=
  match Str.cut c s with
  | Some lr => lr
  | None => (s, "")
  end.

(** The text up to and including the last [/] (when there is one), and the
    last segment. *)
Fixpoint rsplit_slash (s : string) : option string * string :=
  match s with
  | "" => (None, "")
  | String a s' =>
      match rsplit_slash s' with
      | (Some d, l) => (Some (String a d), l)
      | (None, l) => if Ascii.eqb a "/" then (Some "/", l) else (None, String a l)
      end
  end.

(** [_splitparams]: the parameters are what follows the first [;] of the
    last path segment. *)
Definition splitparams (url : string) : string * string :=
  let (dir, last) := rsplit_slash url in
  match Str.cut ";" last with
  | Some (a, b) => (match dir with Some d => d | None => "" end ++ a, b)
  | None => (url, "")
  end.

(** [urlparse(url, scheme)]; the default [scheme] is [""] or a scheme that
    was itself parsed, which the sanitising of [urlsplit] leaves as it is. *)
Definition urlparse (url default : string) : ParseResult :=
  let url := Str.lstrip c0_control_or_space url in
  let url := Str.remove unsafe_byte url in
  let (scheme, url) := split_scheme url default in
  let (netloc, url) :=
    if Str.starts_with "//" url
    then splitnetloc (String.substring 2 (String.length url - 2) url)
    else ("", url) in
  let (url, fragment) := cut_or "#" url in
  let (url, query) := cut_or "?" url in
  let (url, params) :=
    if mem scheme uses_params && Str.contains ";" url
    then splitparams url else (url, "") in
  mkParse scheme netloc url params query fragment.

Definition urlunsplit (scheme netloc url query fragment : string) : string :=
  let url :=
    if negb (netloc =? "") ||
       (negb (scheme =? "") && mem scheme uses_netloc && negb (Str.starts_with "//" url))
    then "//" ++ netloc ++
         (if negb (url =? "") && negb (Str.starts_with "/" url) then "/" ++ url else url)
    else url in
  let url := if negb (scheme =? "") then scheme ++ ":" ++ url else url in
  let url := if negb (query =? "") then url ++ "?" ++ query else url in
  if negb (fragment =? "") then url ++ "#" ++ fragment else url.

Definition urlunparse (p : ParseResult) : string :=
  let url := if negb (params p =? "") then path p ++ ";" ++ params p else path p in
  urlunsplit (scheme p) (netloc p) url (query p) (fragment p).

(** *** [urljoin] *)

(** [segments[1:-1] = filter(None, segments[1:-1])] *)
Definition filter_middle (segments : list string) : list string :=
  match segments with
  | [] => []
  | x :: tl =>
      match rev tl with
      | [] => [x]
      | y :: mid => (x :: filter (fun s => negb (s =? "")) (rev mid) ++ [y])%list
      end
  end.

Definition resolve_step (resolved_path : list string) (seg : string) : list string :=
  if seg =? ".." then removelast resolved_path
  else if seg =? "." then resolved_path
  else (resolved_path ++ [seg])%list.

Definition resolve_path (bpath rpath : string) : string :=
  let base_parts := Str.split "/" bpath in
  let base_parts :=
    if negb (last base_parts "" =? "") then removelast base_parts else base_parts in
  let segments :=
    if Str.starts_with "/" rpath then Str.split "/" rpath
    else filter_middle (base_parts ++ Str.split "/" rpath)%list in
  let resolved_path := fold_left resolve_step segments [] in
  let resolved_path :=
    if mem (last segments "") ["."; ".."] then (resolved_path ++ [""])%list
    else resolved_path in
  let joined := Str.join "/" resolved_path in
  if joined =? "" then "/" else joined.

Definition urljoin (base url : string) : string :=
  if base =? "" then url
  else if url =? "" then base
  else
    let b := urlparse base "" in
    let u := urlparse url (scheme b) in
    if negb (scheme u =? scheme b) || negb (mem (scheme u) uses_relative) then url
    else if mem (scheme u) uses_netloc && negb (netloc u =? "") then urlunparse u
    else
      let netloc := if mem (scheme u) uses_netloc then netloc b else netloc u in
      if (path u =? "") && (params u =? "") then
        urlunparse (mkParse (scheme u) netloc (path b) (params b)
                            (if query u =? "" then query b else query u)
                            (fragment u))
      else
        urlunparse (mkParse (scheme u) netloc (resolve_path (path b) (path u))
                            (params u) (query u) (fragment u)).

End UrlLib.

(* ===================================================================== *)
(** ** Python values *)
(* ===================================================================== *)

Inductive PyValue : Type :=
| PyNone
| PyBool (b : bool)
| PyInt (z : Z)
| PyStr (s : string).

(** [bool(v)], the test of [if v:] *)
Definition truthy (v : PyValue) : bool :=
  match v with
  | PyNone => false
  | PyBool b => b
  | PyInt z => negb (z =? 0)%Z
  | PyStr s => negb (s =? "")
  end.

(** [str(v)], also what an f-string writes for [{v}] *)
Definition py_str (v : PyValue) : string :=
  match v with
  | PyNone => "None"
  | PyBool true => "True"
  | PyBool false => "False"
  | PyInt z => Str.of_Z z
  | PyStr s => s
  end.

(** [v == s] for a [str] literal [s] *)
Definition eq_str (v : PyValue) (s : string) : bool :=
  match v with
  | PyStr t => t =? s
  | _ => false
  end.

(** A [dict] with [str] keys, in insertion order. *)
Definition dict (V : Type) : Type := list (string * V).

Bind Scope list_scope with dict.

Fixpoint dict_get {V : Type} (k : string) (d : dict V) : option V :=
  match d with
  | [] => None
  | (k', v) :: d' => if k' =? k then Some v else dict_get k d'
  end.

(** [d[k] = v] *)
Fixpoint dict_set {V : Type} (k : string) (v : V) (d : dict V) : dict V :=
  match d with
  | [] => [(k, v)]
  | (k', v') :: d' => if k' =? k then (k, v) :: d' else (k', v') :: dict_set k v d'
  end.

(** [v in d.keys()] *)
Definition in_keys {V : Type} (v : PyValue) (d : dict V) : bool :=
  match v with
  | PyStr k => match dict_get k d with Some _ => true | None => false end
  | _ => false
  end.

(** What [_generate_url] receives as [query_params]: a scalar ([None] by
    default, or a falsy argument handed on as it is) or a [dict]. *)
Inductive QueryParams : Type :=
| Scalar (v : PyValue)
| Dict (d : dict string).

Definition truthy_params (q : QueryParams) : bool :=
  match q with
  | Scalar v => truthy v
  | Dict [] => false
  | Dict (_ :: _) => true
  end.

(* ===================================================================== *)
(** ** Exceptions, the remote service, and the monad of a method call *)
(* ===================================================================== *)

Inductive Exn : Type :=
| KeyError (key : string)
| ValueError (msg : string)
| TypeError (msg : string)
| RequestException (detail : string).

Inductive JsonValue : Type :=
| JNull
| JBool (b : bool)
| JNumber (z : Z)
| JString (s : string)
| JArray (items : list JsonValue)
| JObject (members : list (string * JsonValue)).

Record Request : Type := mkRequest {
  url : string;
  headers : dict PyValue
}.

(** What [requests.get(...).json()] comes back with: the decoded body, or
    the exception of the transport or of the decoder. *)
Inductive Response : Type :=
| Decoded (body : JsonValue)
| Failed (e : Exn).

Record State : Type := mkState {
  league_table : dict Z;              (* the module global LEAGUE_CODE *)
  service : Request -> Response;      (* the remote API *)
  sent : list Request                 (* the GET requests issued, oldest first *)
}.

Inductive Outcome (A : Type) : Type :=
| Done (a : A)
| Raised (e : Exn).

Arguments Done {A} a.
Arguments Raised {A} e.

Definition M (A : Type) : Type := State -> Outcome A * State.

Definition ret {A : Type} (a : A) : M A := fun st => (Done a, st).

Definition raise {A : Type} (e : Exn) : M A := fun st => (Raised e, st).

Definition bind {A B : Type} (m : M A) (k : A -> M B) : M B :=
  fun st =>
    match m st with
    | (Done a, st') => k a st'
    | (Raised e, st') => (Raised e, st')
    end.

Notation "x <- m ;; k" := (bind m (fun x => k))
  (at level 61, m at next level, right associativity).

(** A pure computation that may raise. *)
Definition lift {A : Type} (r : Exn + A) : M A :=
  match r with
  | inl e => raise e
  | inr a => ret a
  end.

(** [requests.get(url, headers=headers).json()] *)
Definition requests_get_json (url : string) (headers : dict PyValue) : M JsonValue :=
  fun st =>
    let req := mkRequest url headers in
    let st' := mkState (league_table st) (service st) (sent st ++ [req]) in
    match service st req with
    | Decoded body => (Done body, st')
    | Failed e => (Raised e, st')
    end.

(** What a method hands back: the decoded JSON, or an exception object that
    is returned rather than raised. *)
Inductive Returned : Type :=
| RJson (body : JsonValue)
| RError (error : Exn).

(* ===================================================================== *)
(** ** The module [football] *)
(* ===================================================================== *)

Definition LEAGUE_CODE : dict Z :=
  [("BSA", 444); ("PL", 445); ("ELC", 446); ("EL1", 447); ("EL2", 448);
   ("DED", 449); ("FL1", 450); ("FL2", 451); ("BL1", 452); ("BL2", 453);
   ("PD", 455); ("SA", 456); ("PPL", 457); ("DFB", 458); ("SB", 459);
   ("CL", 464); ("AAL", 466)]%Z.

(** The process state once the module is imported. *)
Definition imported (service : Request -> Response) (sent : list Request) : State :=
  mkState LEAGUE_CODE service sent.

Record Football : Type := mkFootball {
  api_key : PyValue;
  self_headers : dict PyValue
}.

Definition API_URL : string := "http://api.football-data.org/v1/".

(** [Football.__init__] *)
Definition init (api_key : PyValue) : Football :=
  mkFootball api_key [("X-Auth-Token", api_key)].

(** The three patterns of the class. *)
Definition season_pattern : Re.regex :=          (* \d\d\d\d *)
  Re.Cat Re.Digit (Re.Cat Re.Digit (Re.Cat Re.Digit Re.Digit)).

Definition matchday_pattern : Re.regex :=        (* \d+ *)
  Re.Plus Re.Digit.

Definition time_frame_pattern : Re.regex :=      (* p|n[1-9]{1,2} *)
  Re.Alt (Re.Chr "p") (Re.Cat (Re.Chr "n") (Re.Repeat (Re.Range "1" "9") 1 2)).

(** [Football._generate_url]. A truthy [query_params] that is no mapping
    makes [urlencode] raise [TypeError]. *)
Definition _generate_url (self : Football) (action : string)
    (query_params : QueryParams) : Exn + string :=
  let action :=
    if (action =? "competitions") || (action =? "fixtures") then action ++ "/"
    else action in
  if truthy_params query_params then
    match query_params with
    | Dict d =>
        let query_params := UrlLib.urlencode d in
        let action := action ++ "?" ++ query_params in
        inr (UrlLib.urljoin API_URL action)
    | Scalar _ => inl (TypeError "not a valid non-string sequence or mapping object")
    end
  else inr (UrlLib.urljoin API_URL action).

(** The block that opens [teams], [table] and [competition_fixtures]: a
    [str] identifier is looked up in [LEAGUE_CODE]; a missing key yields the
    [KeyError], which the method returns. *)
Definition lookup_competition (competition_id : PyValue) : M (Exn + PyValue) :=
  fun st =>
    match competition_id with
    | PyStr code =>
        match dict_get code (league_table st) with
        | Some id => (Done (inr (PyInt id)), st)
        | None => (Done (inl (KeyError code)), st)
        end
    | _ => (Done (inr competition_id), st)
    end.

(** [league_code in LEAGUE_CODE.keys()] *)
Definition is_league_code (v : PyValue) : M bool :=
  fun st => (Done (in_keys v (league_table st)), st).

Definition competitions (self : Football) (season : PyValue) : M Returned :=
  season <- (if truthy season then
               let season := py_str season in
               if negb (Re.re_match season_pattern season)
               then raise (ValueError "season is invalid.")
               else ret (Dict [("season", season)])
             else ret (Scalar season)) ;;
  url <- lift (_generate_url self "competitions" season) ;;
  competitions <- requests_get_json url (self_headers self) ;;
  ret (RJson competitions).

Definition teams (self : Football) (competition_id : PyValue) : M Returned :=
  found <- lookup_competition competition_id ;;
  match found with
  | inl error => ret (RError error)
  | inr competition_id =>
      url <- lift (_generate_url self
                     ("competitions/" ++ py_str competition_id ++ "/teams")
                     (Scalar PyNone)) ;;
      teams <- requests_get_json url (self_headers self) ;;
      ret (RJson teams)
  end.

Definition table (self : Football) (competition_id matchday : PyValue) : M Returned :=
  found <- lookup_competition competition_id ;;
  match found with
  | inl error => ret (RError error)
  | inr competition_id =>
      matchday <- (if truthy matchday then
                     let matchday := py_str matchday in
                     if negb (Re.re_match matchday_pattern matchday)
                     then raise (ValueError "matchday is invalid.")
                     else ret (Dict [("matchday", matchday)])
                   else ret (Scalar matchday)) ;;
      url <- lift (_generate_url self
                     ("competitions/" ++ py_str competition_id ++ "/leagueTable")
                     matchday) ;;
      table <- requests_get_json url (self_headers self) ;;
      ret (RJson table)
  end.

Definition competition_fixtures (self : Football)
    (competition_id matchday time_frame : PyValue) : M Returned :=
  found <- lookup_competition competition_id ;;
  match found with
  | inl error => ret (RError error)
  | inr competition_id =>
      let query_params : dict string := [] in
      query_params <- (if truthy matchday then
                         let matchday := py_str matchday in
                         if negb (Re.re_match matchday_pattern matchday)
                         then raise (ValueError "matchday is invalid.")
                         else ret (dict_set "matchday" matchday query_params)
                       else ret query_params) ;;
      query_params <- (if truthy time_frame then
                         let time_frame := py_str time_frame in
                         if negb (Re.re_match time_frame_pattern time_frame)
                         then raise (ValueError "time_frame is invalid.")
                         else ret (dict_set "timeFrame" time_frame query_params)
                       else ret query_params) ;;
      url <- lift (_generate_url self
                     ("competitions/" ++ py_str competition_id ++ "/fixtures")
                     (Dict query_params)) ;;
      fixtures <- requests_get_json url (self_headers self) ;;
      ret (RJson fixtures)
  end.

(** A value that enters [query_params] is kept as its text: the value is a
    [str] wherever the class stores one, and [urlencode] writes [str(v)]. *)
Definition fixtures (self : Football) (time_frame league_code : PyValue) : M Returned :=
  let query_params : dict string := [] in
  query_params <- (if truthy time_frame then
                     let time_frame := py_str time_frame in
                     if negb (Re.re_match time_frame_pattern time_frame)
                     then raise (ValueError "time_frame is invalid.")
                     else ret (dict_set "timeFrame" time_frame query_params)
                   else ret query_params) ;;
  query_params <- (if truthy league_code then
                     known <- is_league_code league_code ;;
                     if negb known
                     then raise (ValueError "league_code is invalid.")
                     else ret (dict_set "league" (py_str league_code) query_params)
                   else ret query_params) ;;
  url <- lift (_generate_url self "fixtures" (Dict query_params)) ;;
  fixtures <- requests_get_json url (self_headers self) ;;
  ret (RJson fixtures).

Definition fixture (self : Football) (fixture_id : PyValue) : M Returned :=
  url <- lift (_generate_url self ("fixtures/" ++ py_str fixture_id) (Scalar PyNone)) ;;
  fixture <- requests_get_json url (self_headers self) ;;
  ret (RJson fixture).

Definition team_fixtures (self : Football)
    (team_id season time_frame venue : PyValue) : M Returned :=
  let query_params : dict string := [] in
  query_params <- (if truthy season then
                     let season := py_str season in
                     if negb (Re.re_match season_pattern season)
                     then raise (ValueError "season is invalid.")
                     else ret (dict_set "season" season query_params)
                   else ret query_params) ;;
  query_params <- (if truthy time_frame then
                     let time_frame := py_str time_frame in
                     if negb (Re.re_match time_frame_pattern time_frame)
                     then raise (ValueError "time_frame is invalid.")
                     else ret (dict_set "timeFrame" time_frame query_params)
                   else ret query_params) ;;
  query_params <- (if truthy venue then
                     if negb (eq_str venue "home" || eq_str venue "away")
                     then raise (ValueError "venue is invalid.")
                     else ret (dict_set "venue" (py_str venue) query_params)
                   else ret query_params) ;;
  url <- lift (_generate_url self ("teams/" ++ py_str team_id ++ "/fixtures")
                 (Dict query_params)) ;;
  fixtures <- requests_get_json url (self_headers self) ;;
  ret (RJson fixtures).

Definition team (self : Football) (team_id : PyValue) : M Returned :=
  url <- lift (_generate_url self ("teams/" ++ py_str team_id) (Scalar PyNone)) ;;
  team <- requests_get_json url (self_headers self) ;;
  ret (RJson team).

Definition players (self : Football) (team_id : PyValue) : M Returned :=
  url <- lift (_generate_url self ("teams/" ++ py_str team_id ++ "/players")
                 (Scalar PyNone)) ;;
  players <- requests_get_json url (self_headers self) ;;
  ret (RJson players).

(* ===================================================================== *)
(** ** Vocabulary of the specification *)
(* ===================================================================== *)

(** Exactly four decimal digits. *)
Definition four_digits (s : string) : bool :=
  (String.length s =? 4)%nat && Str.forall_chars Str.is_digit s.

(** One or more decimal digits. *)
Definition decimal_digits (s : string) : bool :=
  negb (s =? "") && Str.forall_chars Str.is_digit s.

(** The letter p, or the letter n followed by one or two decimal digits. *)
Definition time_frame_shape (s : string) : bool :=
  (s =? "p") ||
  match s with
  | String c d =>
      Ascii.eqb c "n" && (1 <=? String.length d)%nat && (String.length d <=? 2)%nat
      && Str.forall_chars Str.is_digit d
  | "" => false
  end.

(** The letter p, or the letter n followed by one or two digits from 1 to 9. *)
Definition time_frame_exact (s : string) : bool :=
  (s =? "p") ||
  match s with
  | String c d =>
      Ascii.eqb c "n" && (1 <=? String.length d)%nat && (String.length d <=? 2)%nat
      && Str.forall_chars (Str.between "1" "9") d
  | "" => false
  end.

(** The first [n] characters exist and are decimal digits. *)
Fixpoint begins_with_digits (n : nat) (s : string) : bool :=
  match n with
  | O => true
  | S n' =>
      match s with
      | String c s' => Str.is_digit c && begins_with_digits n' s'
      | "" => false
      end
  end.

(** The text begins with p, or with n and a digit from 1 to 9. *)
Definition begins_with_time_frame (s : string) : bool :=
  match s with
  | String c rest =>
      Ascii.eqb c "p" ||
      (Ascii.eqb c "n" &&
       match rest with
       | String d _ => Str.between "1" "9" d
       | "" => false
       end)
  | "" => false
  end.

(** An optional argument is absent (falsy) or passes its pattern. *)
Definition passes (pattern : Re.regex) (v : PyValue) : bool :=
  negb (truthy v) || Re.re_match pattern (py_str v).

(** The entry an optional argument contributes to the query parameters. *)
Definition param (name : string) (v : PyValue) : dict string :=
  if truthy v then [(name, py_str v)] else [].

(** The identifier a competition argument stands for in a given state: a
    [str] is a key of the table, anything else is taken as it is. *)
Definition resolves (competition_id : PyValue) (st : State) : option PyValue :=
  match competition_id with
  | PyStr code => option_map PyInt (dict_get code (league_table st))
  | v => Some v
  end.

(** Exactly one GET, to [u] with the client's headers; the decoded body is
    returned, a failure of the transport or of the decoder is raised. *)
Definition one_get (self : Football) (u : string) : M Returned :=
  fun st =>
    let req := mkRequest u (self_headers self) in
    (match service st req with
     | Decoded body => Done (RJson body)
     | Failed e => Raised e
     end,
     mkState (league_table st) (service st) (sent st ++ [req])).

(** The mnemonics and identifiers as the interface description lists them. *)
Definition documented_ids : list (string * Z) :=
  [("BSA", 444); ("PL", 445); ("ELC", 446); ("EL1", 447); ("EL2", 448);
   ("DED", 449); ("FL1", 450); ("FL2", 451); ("BL1", 452); ("BL2", 453);
   ("PD", 455); ("SA", 456); ("PPL", 457); ("DFB", 458); ("SB", 459);
   ("CL", 464); ("AAL", 466)]%Z.

(** A call of one of the nine public methods. *)
Inductive Call : Type :=
| CallCompetitions (season : PyValue)
| CallTeams (competition_id : PyValue)
| CallTable (competition_id matchday : PyValue)
| CallCompetitionFixtures (competition_id matchday time_frame : PyValue)
| CallFixtures (time_frame league_code : PyValue)
| CallFixture (fixture_id : PyValue)
| CallTeamFixtures (team_id season time_frame venue : PyValue)
| CallTeam (team_id : PyValue)
| CallPlayers (team_id : PyValue).

Definition invoke (self : Football) (c : Call) : M Returned :=
  match c with
  | CallCompetitions season => competitions self season
  | CallTeams competition_id => teams self competition_id
  | CallTable competition_id matchday => table self competition_id matchday
  | CallCompetitionFixtures competition_id matchday time_frame =>
      competition_fixtures self competition_id matchday time_frame
  | CallFixtures time_frame league_code => fixtures self time_frame league_code
  | CallFixture fixture_id => fixture self fixture_id
  | CallTeamFixtures team_id season time_frame venue =>
      team_fixtures self team_id season time_frame venue
  | CallTeam team_id => team self team_id
  | CallPlayers team_id => players self team_id
  end.

(** The state after a sequence of calls, whatever each of them yields. *)
Fixpoint session (self : Football) (calls : list Call) (st : State) : State :=
  match calls with
  | [] => st
  | c :: rest => session self rest (snd (invoke self c st))
  end.

(** The characters [urlencode] can produce. *)
Definition encoded_char (c : ascii) : bool :=
  UrlLib.always_safe c || Str.contains c "+%=&".

(** A relative path that [urljoin] appends to [API_URL] as it is: it does
    not start with a slash or a blank, has no delimiter of another URL part,
    and no empty or dot segment. *)
Definition plain_path (s : string) : bool :=
  match s with
  | "" => false
  | String a _ =>
      negb (UrlLib.c0_control_or_space a) && negb (Ascii.eqb a "/")
      && (Str.remove UrlLib.unsafe_byte s =? s)
      && negb (Str.contains ":" s) && negb (Str.contains "#" s)
      && negb (Str.contains "?" s) && negb (Str.contains ";" s)
      && (UrlLib.resolve_path "/v1/" s =? "/v1/" ++ s)
  end.

(** The query string of a URL, with its question mark. *)
Definition query_string (d : dict string) : string :=
  match d with
  | [] => ""
  | _ :: _ => "?" ++ UrlLib.urlencode d
  end.

(** [venue] is absent (falsy) or one of the two accepted values. *)
Definition venue_passes (v : PyValue) : bool :=
  negb (truthy v) || eq_str v "home" || eq_str v "away".

(** [league_code] is absent (falsy) or a key of the table of the state. *)
Definition league_passes (v : PyValue) (st : State) : bool :=
  negb (truthy v) || in_keys v (league_table st).

(** A method leaves the module global and the service as they are. *)
Definition preserves {A : Type} (m : M A) : Prop :=
  forall st, league_table (snd (m st)) = league_table st
             /\ service (snd (m st)) = service st.

(** A character of a path segment: a letter, a digit or a hyphen. *)
Definition segment_char (c : ascii) : bool := Str.is_alnum c || Ascii.eqb c "-".

(** A path segment: a non-empty text of such characters. The text of every
    [int], [bool] and [None] is one. *)
Definition segment (s : string) : bool :=
  negb (s =? "") && Str.forall_chars segment_char s.

(** A character of a path made of segments. *)
Definition path_char (c : ascii) : bool := segment_char c || Ascii.eqb c "/".

(** [isinstance(v, str)] *)
Definition is_str (v : PyValue) : bool :=
  match v with
  | PyStr _ => true
  | _ => false
  end.

(** [s.count(c)] *)
Fixpoint count_char (c : ascii) (s : string) : nat :=
  match s with
  | "" => 0
  | String a s' => (if Ascii.eqb a c then 1 else 0) + count_char c s'
  end.

(** The messages of the five validation errors. *)
Definition validation_messages : list string :=
  ["season is invalid."; "matchday is invalid."; "time_frame is invalid.";
   "league_code is invalid."; "venue is invalid."].

(** The three ways a call of a public method can end: a validation error
    and no request; the [KeyError] of an unknown mnemonic handed back and no
    request; or exactly one GET, whose reply or failure is the outcome. *)
Inductive call_result (self : Football) (st : State) : Outcome Returned * State -> Prop :=
| Rejected (msg : string) :
    In msg validation_messages ->
    call_result self st (Raised (ValueError msg), st)
| UnknownCode (code : string) :
    dict_get code (league_table st) = None ->
    call_result self st (Done (RError (KeyError code)), st)
| Requested (u : string) :
    call_result self st (one_get self u st).

(** A service for the examples: every request is answered with [null]. *)
Definition null_service : Request -> Response := fun _ => Decoded JNull.

(* ===================================================================== *)
(** * Properties *)
(* ===================================================================== *)

(** ** Strings *)

Module StrFacts.
Import Str.

Lemma forall_chars_app p s t :
  forall_chars p (s ++ t) = forall_chars p s && forall_chars p t.
Proof.
  unfold forall_chars. induction s as [| a s IH]; simpl; [reflexivity |].
  rewrite IH. apply andb_assoc.
Qed.

Lemma contains_none p c s :
  (forall a, p a = true -> Ascii.eqb a c = false) ->
  forall_chars p s = true -> contains c s = false.
Proof.
  intros Hp. unfold forall_chars. induction s as [| a s IH]; simpl; [reflexivity |].
  intros H. apply andb_true_iff in H as [Ha Hs].
  rewrite (Hp a Ha), IH; auto.
Qed.

Lemma cut_none c s : contains c s = false -> cut c s = None.
Proof.
  induction s as [| a s IH]; simpl; [reflexivity |].
  intros H. apply orb_false_iff in H as [Ha Hs].
  rewrite Ha, IH; auto.
Qed.

Lemma remove_none p q s :
  (forall a, p a = true -> q a = false) ->
  forall_chars p s = true -> remove q s = s.
Proof.
  intros Hp. unfold forall_chars. induction s as [| a s IH]; simpl; [reflexivity |].
  intros H. apply andb_true_iff in H as [Ha Hs].
  rewrite (Hp a Ha), IH; auto.
Qed.

Lemma forall_chars_join p sep l :
  forall_chars p sep = true ->
  Forall (fun s => forall_chars p s = true) l ->
  forall_chars p (join sep l) = true.
Proof.
  intros Hsep H. induction H as [| x l Hx Hl IH]; [reflexivity |].
  destruct l as [| y l]; [exact Hx |].
  change (join sep (x :: y :: l)) with (x ++ sep ++ join sep (y :: l)).
  rewrite !forall_chars_app, Hx, Hsep, IH. reflexivity.
Qed.

Lemma contains_app c s t : contains c (s ++ t) = contains c s || contains c t.
Proof.
  induction s as [| a s IH]; simpl; [reflexivity |].
  rewrite IH. apply orb_assoc.
Qed.

Lemma cut_at_first c s t : contains c s = false -> cut c (s ++ String c t) = Some (s, t).
Proof.
  induction s as [| a s IH]; simpl.
  - intros _. rewrite Ascii.eqb_refl. reflexivity.
  - intros H. apply orb_false_iff in H as [Ha Hs].
    rewrite Ha, IH; auto.
Qed.

Lemma remove_app p s t : remove p (s ++ t) = remove p s ++ remove p t.
Proof.
  induction s as [| a s IH]; simpl; [reflexivity |].
  rewrite IH. destruct (p a); reflexivity.
Qed.

Lemma append_assoc (s t u : string) : (s ++ t) ++ u = s ++ t ++ u.
Proof. induction s as [| a s IH]; simpl; [reflexivity | rewrite IH; reflexivity]. Qed.

Lemma append_nil_r (s : string) : s ++ "" = s.
Proof. induction s as [| a s IH]; simpl; [reflexivity | rewrite IH; reflexivity]. Qed.

End StrFacts.

(** ** The matcher is a matcher *)

Module ReFacts.
Import Re.

Ltac inv H := inversion H; subst; clear H.

Lemma append_nil_inv (s1 s2 : string) : s1 ++ s2 = "" -> s1 = "" /\ s2 = "".
Proof. destruct s1; simpl; intros H; [auto | discriminate]. Qed.

Lemma matches_Eps_inv (s : string) : matches Eps s -> s = "".
Proof. intro H; inversion H; reflexivity. Qed.

Lemma nullable_matches (r : regex) : nullable r = true <-> matches r "".
Proof.
  split.
  - induction r; simpl; intros H; try discriminate.
    + constructor.
    + apply andb_true_iff in H as [H1 H2].
      apply (@MCat r1 r2 "" ""); auto.
    + apply orb_true_iff in H as [H | H]; [apply MAltL | apply MAltR]; auto.
    + constructor.
  - intros H. remember "" as s eqn:E.
    induction H; simpl; try discriminate; auto.
    + apply append_nil_inv in E as [-> ->].
      rewrite IHmatches1, IHmatches2; auto.
    + rewrite IHmatches; auto.
    + rewrite IHmatches, orb_true_r; auto.
Qed.

Lemma matches_Cat_inv (r1 r2 : regex) (s : string) :
  matches (Cat r1 r2) s ->
  exists s1 s2, s = s1 ++ s2 /\ matches r1 s1 /\ matches r2 s2.
Proof. intro H; inversion H; subst; eauto. Qed.

Lemma matches_Alt_inv (r1 r2 : regex) (s : string) :
  matches (Alt r1 r2) s -> matches r1 s \/ matches r2 s.
Proof. intro H; inversion H; subst; auto. Qed.

Lemma matches_Cat_Eps (r : regex) (s : string) : matches (Cat Eps r) s <-> matches r s.
Proof.
  split; intro H.
  - apply matches_Cat_inv in H as (s1 & s2 & -> & H1 & H2).
    apply matches_Eps_inv in H1. subst. exact H2.
  - apply (@MCat Eps r "" s); [constructor | exact H].
Qed.

Lemma matches_cat (r1 r2 : regex) (s : string) :
  matches (cat r1 r2) s <-> matches (Cat r1 r2) s.
Proof.
  assert (L : forall r, matches (Cat Void r) s <-> matches Void s).
  { intros r; split; intro H; [| inv H].
    apply matches_Cat_inv in H as (s1 & s2 & _ & H1 & _). inv H1. }
  assert (R : forall r, matches (Cat r Void) s <-> matches Void s).
  { intros r; split; intro H; [| inv H].
    apply matches_Cat_inv in H as (s1 & s2 & _ & _ & H2). inv H2. }
  destruct r1; simpl; try (symmetry; apply L);
    destruct r2; simpl; try (symmetry; apply R); try reflexivity;
    symmetry; apply matches_Cat_Eps.
Qed.

Lemma matches_alt (r1 r2 : regex) (s : string) :
  matches (alt r1 r2) s <-> matches (Alt r1 r2) s.
Proof.
  assert (L : forall r, matches (Alt Void r) s <-> matches r s).
  { intros r; split; intro H; [| apply MAltR; assumption].
    apply matches_Alt_inv in H as [H | H]; [inv H | assumption]. }
  assert (R : forall r, matches (Alt r Void) s <-> matches r s).
  { intros r; split; intro H; [| apply MAltL; assumption].
    apply matches_Alt_inv in H as [H | H]; [assumption | inv H]. }
  destruct r1; simpl; try (symmetry; apply L);
    destruct r2; simpl; try (symmetry; apply R); reflexivity.
Qed.

Lemma matches_atom (b : bool) (s : string) : matches (atom b) s -> b = true /\ s = "".
Proof. destruct b; simpl; intro H; inv H; auto. Qed.

Lemma deriv_sound (r : regex) :
  forall c s, matches (deriv c r) s -> matches r (String c s).
Proof.
  induction r; intros c0 s H; simpl in H.
  - inv H.
  - inv H.
  - apply matches_atom in H as [E ->].
    apply Ascii.eqb_eq in E. subst. constructor.
  - apply matches_atom in H as [E ->]. constructor; exact E.
  - apply matches_atom in H as [E ->]. constructor; exact E.
  - destruct (nullable r1) eqn:N.
    + apply matches_alt in H. apply matches_Alt_inv in H as [H | H].
      * apply matches_cat in H.
        apply matches_Cat_inv in H as (s1 & s2 & -> & H1 & H2).
        apply (@MCat r1 r2 (String c0 s1) s2); auto.
      * apply (@MCat r1 r2 "" (String c0 s)); auto.
        apply nullable_matches; exact N.
    + apply matches_cat in H.
      apply matches_Cat_inv in H as (s1 & s2 & -> & H1 & H2).
      apply (@MCat r1 r2 (String c0 s1) s2); auto.
  - apply matches_alt in H.
    apply matches_Alt_inv in H as [H | H]; [apply MAltL | apply MAltR]; auto.
  - apply matches_cat in H.
    apply matches_Cat_inv in H as (s1 & s2 & -> & H1 & H2).
    apply (@MStarS r (String c0 s1) s2); auto.
Qed.

Lemma deriv_complete (r : regex) (w : string) :
  matches r w -> forall c s, w = String c s -> matches (deriv c r) s.
Proof.
  induction 1; intros c0 s0 E; simpl.
  - discriminate.
  - inv E. rewrite Ascii.eqb_refl. constructor.
  - inv E. rewrite H. constructor.
  - inv E. rewrite H. constructor.
  - destruct s1 as [| a s1']; simpl in E.
    + subst s2.
      assert (N : nullable r1 = true) by (apply nullable_matches; assumption).
      rewrite N. apply matches_alt. apply MAltR. apply IHmatches2. reflexivity.
    + inv E.
      assert (C : matches (cat (deriv c0 r1) r2) (s1' ++ s2)).
      { apply matches_cat. constructor; auto. }
      destruct (nullable r1); [apply matches_alt; apply MAltL |]; exact C.
  - apply matches_alt. apply MAltL. auto.
  - apply matches_alt. apply MAltR. auto.
  - discriminate.
  - destruct s1 as [| a s1']; simpl in E.
    + apply IHmatches2 in E. exact E.
    + inv E. apply matches_cat. constructor; auto.
Qed.

(** [re_match r s] holds exactly when some prefix of [s] is a word of [r]. *)
Theorem re_match_prefix (r : regex) (s : string) :
  re_match r s = true <-> exists p q, s = p ++ q /\ matches r p.
Proof.
  revert r. induction s as [| c s IH]; intros r; simpl.
  - rewrite orb_false_r. split.
    + intro N. exists "", "". split; [reflexivity | apply nullable_matches; exact N].
    + intros (p & q & E & Hm). symmetry in E.
      apply append_nil_inv in E as [-> _]. apply nullable_matches; exact Hm.
  - split.
    + intro H. apply orb_true_iff in H as [N | H].
      * exists "", (String c s). split; [reflexivity | apply nullable_matches; exact N].
      * apply IH in H as (p & q & -> & Hm).
        exists (String c p), q. split; [reflexivity | apply deriv_sound; exact Hm].
    + intros (p & q & E & Hm). destruct p as [| a p]; simpl in E.
      * apply nullable_matches in Hm. rewrite Hm. reflexivity.
      * inv E. apply orb_true_iff. right. apply IH.
        exists p, q. split; [reflexivity |].
        apply (deriv_complete _ _ Hm). reflexivity.
Qed.

Lemma re_match_Void (s : string) : re_match Void s = false.
Proof. induction s; simpl; auto. Qed.

End ReFacts.

(** ** The three patterns, as tests on the first characters *)

Ltac step_re := cbn [Re.re_match Re.deriv Re.nullable Re.cat Re.alt Re.atom orb andb
                     Re.Plus Re.Repeat Re.times Re.upto Nat.sub].

Lemma season_pattern_match s : Re.re_match season_pattern s = begins_with_digits 4 s.
Proof.
  unfold season_pattern.
  do 4 (destruct s as [| ? s]; [reflexivity |];
        step_re; cbn [begins_with_digits];
        destruct (Str.is_digit _); step_re; [| apply ReFacts.re_match_Void]).
  destruct s; reflexivity.
Qed.

Lemma matchday_pattern_match s : Re.re_match matchday_pattern s = begins_with_digits 1 s.
Proof.
  unfold matchday_pattern.
  destruct s as [| a s]; [reflexivity |].
  step_re; cbn [begins_with_digits].
  destruct (Str.is_digit a); step_re; [| apply ReFacts.re_match_Void].
  destruct s; reflexivity.
Qed.

Lemma time_frame_pattern_match s :
  Re.re_match time_frame_pattern s = begins_with_time_frame s.
Proof.
  unfold time_frame_pattern, begins_with_time_frame.
  destruct s as [| a s]; [reflexivity |].
  step_re.
  destruct (Ascii.eqb "p" a) eqn:Ep; destruct (Ascii.eqb "n" a) eqn:En; step_re.
  all: rewrite ?(Ascii.eqb_sym a "p"), ?(Ascii.eqb_sym a "n"), ?Ep, ?En; cbn [orb andb].
  - destruct s; reflexivity.
  - destruct s; reflexivity.
  - destruct s as [| d s]; [reflexivity |]. step_re.
    destruct (Str.between "1" "9" d); step_re; [| apply ReFacts.re_match_Void].
    destruct s; reflexivity.
  - apply ReFacts.re_match_Void.
Qed.


(** ** [urlencode] and [urljoin] on the URLs of the class *)

Module UrlFacts.
Import UrlLib.

Lemma hex_digit_encoded n : encoded_char (hex_digit n) = true.
Proof. do 16 (destruct n as [| n]; [reflexivity |]). reflexivity. Qed.

Lemma quote_char_encoded c : Str.forall_chars encoded_char (quote_char c) = true.
Proof.
  unfold quote_char. destruct (always_safe c) eqn:S.
  - unfold Str.forall_chars; simpl. unfold encoded_char. rewrite S. reflexivity.
  - destruct (Ascii.eqb c " "); [reflexivity |].
    unfold utf8. destruct (nat_of_ascii c <? 128)%nat;
      unfold Str.forall_chars; cbn [map String.concat percent list_ascii_of_string forallb String.append];
      rewrite !hex_digit_encoded; reflexivity.
Qed.

Lemma quote_plus_encoded s : Str.forall_chars encoded_char (quote_plus s) = true.
Proof.
  induction s as [| c s IH]; [reflexivity |]. simpl.
  rewrite StrFacts.forall_chars_app, quote_char_encoded, IH. reflexivity.
Qed.

Lemma urlencode_encoded d : Str.forall_chars encoded_char (urlencode d) = true.
Proof.
  unfold urlencode. apply StrFacts.forall_chars_join; [reflexivity |].
  apply Forall_forall. intros s Hs. apply in_map_iff in Hs as ([k v] & <- & _).
  cbn [fst snd]. rewrite !StrFacts.forall_chars_app, !quote_plus_encoded. reflexivity.
Qed.

Lemma urlencode_nonempty kv d : urlencode (kv :: d) <> "".
Proof.
  unfold urlencode. cbn [map].
  assert (E : forall a b, a ++ "=" ++ b <> "").
  { intros a b. destruct a; simpl; discriminate. }
  destruct (map _ d); cbn [Str.join]; [apply E |].
  intro H. destruct (quote_plus (fst kv)); simpl in H; discriminate.
Qed.

Lemma encoded_no_hash c : encoded_char c = true -> Ascii.eqb c "#" = false.
Proof. destruct c as [[] [] [] [] [] [] [] []]; vm_compute; intro H; congruence. Qed.

Lemma encoded_not_unsafe c : encoded_char c = true -> unsafe_byte c = false.
Proof. destruct c as [[] [] [] [] [] [] [] []]; vm_compute; intro H; congruence. Qed.

Lemma encoded_no_colon c : encoded_char c = true -> Ascii.eqb c ":" = false.
Proof. destruct c as [[] [] [] [] [] [] [] []]; vm_compute; intro H; congruence. Qed.

Lemma urlparse_base :
  urlparse API_URL "" = mkParse "http" "api.football-data.org" "/v1/" "" "" "".
Proof. vm_compute. reflexivity. Qed.

(** A relative reference made of a path free of delimiters and an encoded
    query string is parsed into exactly these two parts. *)
Lemma urlparse_path_query (a : ascii) (p q : string) :
  c0_control_or_space a = false ->
  Ascii.eqb a "/" = false ->
  Str.remove unsafe_byte (String a p) = String a p ->
  Str.contains ":" (String a p) = false ->
  Str.contains "#" (String a p) = false ->
  Str.contains "?" (String a p) = false ->
  Str.contains ";" (String a p) = false ->
  Str.forall_chars encoded_char q = true ->
  urlparse (String a p ++ "?" ++ q) "http" = mkParse "http" "" (String a p) "" q "".
Proof.
  intros Hc0 Hslash Hrm Hcolon Hhash Hqm Hsemi Hq.
  pose proof (StrFacts.remove_none encoded_char unsafe_byte q encoded_not_unsafe Hq) as Hrmq.
  pose proof (StrFacts.contains_none encoded_char "#" q encoded_no_hash Hq) as Hhq.
  pose proof (StrFacts.contains_none encoded_char ":" q encoded_no_colon Hq) as Hcq.
  unfold urlparse.
  assert (E1 : Str.lstrip c0_control_or_space (String a p ++ "?" ++ q)
               = String a p ++ "?" ++ q).
  { simpl. rewrite Hc0. reflexivity. }
  rewrite E1.
  assert (E2 : Str.remove unsafe_byte (String a p ++ "?" ++ q) = String a p ++ "?" ++ q).
  { rewrite !StrFacts.remove_app, Hrm, Hrmq. reflexivity. }
  rewrite E2.
  assert (E3 : split_scheme (String a p ++ "?" ++ q) "http"
               = ("http", String a p ++ "?" ++ q)).
  { unfold split_scheme. rewrite StrFacts.cut_none; [reflexivity |].
    rewrite !StrFacts.contains_app, Hcolon, Hcq. reflexivity. }
  rewrite E3.
  assert (E4 : Str.starts_with "//" (String a p ++ "?" ++ q) = false).
  { cbn [Str.starts_with String.append].
    rewrite (Ascii.eqb_sym "/" a), Hslash. reflexivity. }
  rewrite E4.
  assert (E5 : cut_or "#" (String a p ++ "?" ++ q) = (String a p ++ "?" ++ q, "")).
  { unfold cut_or. rewrite StrFacts.cut_none; [reflexivity |].
    rewrite !StrFacts.contains_app, Hhash, Hhq. reflexivity. }
  rewrite E5.
  assert (E6 : cut_or "?" (String a p ++ "?" ++ q) = (String a p, q)).
  { unfold cut_or. change ("?" ++ q) with (String "?" q).
    rewrite StrFacts.cut_at_first; [reflexivity | exact Hqm]. }
  rewrite E6, Hsemi, andb_false_r. reflexivity.
Qed.

(** The same reference with no query string. *)
Lemma urlparse_path (a : ascii) (p : string) :
  c0_control_or_space a = false ->
  Ascii.eqb a "/" = false ->
  Str.remove unsafe_byte (String a p) = String a p ->
  Str.contains ":" (String a p) = false ->
  Str.contains "#" (String a p) = false ->
  Str.contains "?" (String a p) = false ->
  Str.contains ";" (String a p) = false ->
  urlparse (String a p) "http" = mkParse "http" "" (String a p) "" "" "".
Proof.
  intros Hc0 Hslash Hrm Hcolon Hhash Hqm Hsemi.
  unfold urlparse.
  assert (E1 : Str.lstrip c0_control_or_space (String a p) = String a p).
  { simpl. rewrite Hc0. reflexivity. }
  rewrite E1, Hrm.
  assert (E3 : split_scheme (String a p) "http" = ("http", String a p)).
  { unfold split_scheme. rewrite StrFacts.cut_none; [reflexivity | exact Hcolon]. }
  rewrite E3.
  assert (E4 : Str.starts_with "//" (String a p) = false).
  { cbn [Str.starts_with String.append].
    rewrite (Ascii.eqb_sym "/" a), Hslash. reflexivity. }
  rewrite E4.
  unfold cut_or. rewrite (StrFacts.cut_none "#" _ Hhash), (StrFacts.cut_none "?" _ Hqm).
  rewrite Hsemi, andb_false_r. reflexivity.
Qed.

Ltac use_plain_path H :=
  match type of H with
  | plain_path ?s = true =>
      destruct s as [| a p]; [discriminate H |];
      unfold plain_path in H;
      repeat (let H' := fresh "P" in apply andb_true_iff in H as [H H']);
      repeat match goal with
             | X : negb _ = true |- _ => apply negb_true_iff in X
             | X : (_ =? _) = true |- _ => apply String.eqb_eq in X
             end
  end.

Lemma urlunparse_api (p q : string) :
  urlunparse (mkParse "http" "api.football-data.org" ("/v1/" ++ p) "" q "")
  = API_URL ++ p ++ (if q =? "" then "" else "?" ++ q).
Proof.
  unfold urlunparse, urlunsplit. cbn [scheme netloc path params query fragment].
  change (negb ("" =? "")) with false. cbv iota.
  change (negb ("api.football-data.org" =? "")) with true. cbv iota.
  cbn [orb].
  change (negb ("/v1/" ++ p =? "") && negb (Str.starts_with "/" ("/v1/" ++ p))) with false.
  cbv iota.
  change (negb ("http" =? "")) with true. cbv iota.
  destruct (q =? ""); cbn [negb].
  - change API_URL with ("http:" ++ "//" ++ "api.football-data.org" ++ "/v1/").
    rewrite StrFacts.append_nil_r. rewrite !StrFacts.append_assoc. reflexivity.
  - change API_URL with ("http:" ++ "//" ++ "api.football-data.org" ++ "/v1/").
    rewrite !StrFacts.append_assoc. reflexivity.
Qed.

Lemma urljoin_path_query (s q : string) :
  plain_path s = true ->
  Str.forall_chars encoded_char q = true ->
  urljoin API_URL (s ++ "?" ++ q) = API_URL ++ s ++ (if q =? "" then "" else "?" ++ q).
Proof.
  intros Hs Hq. use_plain_path Hs.
  unfold urljoin. rewrite urlparse_base. cbn [scheme netloc path params query fragment].
  rewrite urlparse_path_query by assumption.
  cbn [scheme netloc path params query fragment].
  change (API_URL =? "") with false. cbv iota.
  change (String a p ++ "?" ++ q =? "") with false. cbv iota.
  change (negb ("http" =? "http") || negb (mem "http" uses_relative)) with false.
  cbv iota.
  change (mem "http" uses_netloc) with true. cbv iota.
  change (true && negb ("" =? "")) with false. cbv iota.
  change ((String a p =? "") && ("" =? "")) with false. cbv iota.
  match goal with X : resolve_path _ _ = _ |- _ => rewrite X end.
  apply urlunparse_api.
Qed.

Lemma urljoin_path (s : string) :
  plain_path s = true -> urljoin API_URL s = API_URL ++ s.
Proof.
  intros Hs. use_plain_path Hs.
  unfold urljoin. rewrite urlparse_base. cbn [scheme netloc path params query fragment].
  rewrite urlparse_path by assumption.
  cbn [scheme netloc path params query fragment].
  change (API_URL =? "") with false. cbv iota.
  change (String a p =? "") with false. cbv iota.
  change (negb ("http" =? "http") || negb (mem "http" uses_relative)) with false.
  cbv iota.
  change (mem "http" uses_netloc) with true. cbv iota.
  change (true && negb ("" =? "")) with false. cbv iota.
  change (false && ("" =? "")) with false. cbv iota.
  match goal with X : resolve_path _ _ = _ |- _ => rewrite X end.
  rewrite urlunparse_api. change ("" =? "") with true. cbv iota.
  rewrite StrFacts.append_nil_r. reflexivity.
Qed.

End UrlFacts.

(** ** The URL builder *)

Lemma generate_url_dict (self : Football) (action : string) (d : dict string) :
  _generate_url self action (Dict d)
  = inr (UrlLib.urljoin API_URL
           ((if (action =? "competitions") || (action =? "fixtures")
             then action ++ "/" else action) ++ query_string d)).
Proof.
  unfold _generate_url. destruct d as [| kv d]; cbn [truthy_params query_string].
  - rewrite StrFacts.append_nil_r. reflexivity.
  - reflexivity.
Qed.

Lemma generate_url_falsy (self : Football) (action : string) (v : PyValue) :
  truthy v = false ->
  _generate_url self action (Scalar v) = _generate_url self action (Dict []).
Proof. intro H. unfold _generate_url. cbn [truthy_params]. rewrite H. reflexivity. Qed.

Lemma generate_url_root (self : Football) (root : string) (d : dict string) :
  root = "competitions" \/ root = "fixtures" ->
  _generate_url self root (Dict d) = inr (API_URL ++ root ++ "/" ++ query_string d).
Proof.
  intros Hroot. rewrite generate_url_dict.
  assert (E : ((root =? "competitions") || (root =? "fixtures")) = true)
    by (destruct Hroot; subst; reflexivity).
  rewrite E. f_equal.
  assert (P : plain_path (root ++ "/") = true) by (destruct Hroot; subst; reflexivity).
  destruct d as [| kv d]; cbn [query_string].
  - rewrite !StrFacts.append_nil_r. apply UrlFacts.urljoin_path. exact P.
  - rewrite (UrlFacts.urljoin_path_query _ _ P (UrlFacts.urlencode_encoded (kv :: d))).
    destruct (UrlLib.urlencode (kv :: d) =? "") eqn:E0.
    + apply String.eqb_eq in E0. apply UrlFacts.urlencode_nonempty in E0. contradiction.
    + rewrite <- !StrFacts.append_assoc. reflexivity.
Qed.

(** ** Running a method *)

Lemma bind_done {A B : Type} (m : M A) (k : A -> M B) (st st' : State) (a : A) :
  m st = (Done a, st') -> bind m k st = k a st'.
Proof. intro H. unfold bind. rewrite H. reflexivity. Qed.

Lemma bind_raised {A B : Type} (m : M A) (k : A -> M B) (st st' : State) (e : Exn) :
  m st = (Raised e, st') -> bind m k st = (Raised e, st').
Proof. intro H. unfold bind. rewrite H. reflexivity. Qed.

(** The tail every method ends with. *)
Lemma fetch_one_get (self : Football) (u : string) (st : State) :
  (body <- requests_get_json u (self_headers self) ;; ret (RJson body)) st
  = one_get self u st.
Proof.
  unfold bind, requests_get_json, one_get, ret.
  destruct (service st _); reflexivity.
Qed.

Lemma send_one_get (self : Football) (r : Exn + string) (u : string) (st : State) :
  r = inr u ->
  (url <- lift r ;;
   body <- requests_get_json url (self_headers self) ;; ret (RJson body)) st
  = one_get self u st.
Proof. intros ->. apply fetch_one_get. Qed.

Lemma lookup_competition_resolves (competition_id id : PyValue) (st : State) :
  resolves competition_id st = Some id ->
  lookup_competition competition_id st = (Done (inr id), st).
Proof.
  unfold resolves, lookup_competition.
  destruct competition_id; try (intros [= <-]; reflexivity).
  destruct (dict_get s (league_table st)); simpl; [intros [= <-]; reflexivity | discriminate].
Qed.

Lemma passes_true (pattern : Re.regex) (v : PyValue) :
  passes pattern v = true -> truthy v = true -> Re.re_match pattern (py_str v) = true.
Proof. unfold passes. intros H T. rewrite T in H. exact H. Qed.

Lemma competitions_passes (self : Football) (season : PyValue) (st : State) :
  passes season_pattern season = true ->
  exists u, _generate_url self "competitions" (Dict (param "season" season)) = inr u
            /\ competitions self season st = one_get self u st.
Proof.
  intros Hs. rewrite generate_url_root by auto. eexists. split; [reflexivity |].
  unfold competitions, param.
  destruct (truthy season) eqn:T.
  - rewrite (passes_true _ _ Hs T). cbn [negb].
    erewrite bind_done by reflexivity.
    apply send_one_get. apply generate_url_root. auto.
  - erewrite bind_done by reflexivity.
    apply send_one_get. rewrite (generate_url_falsy _ _ _ T). apply generate_url_root. auto.
Qed.

Lemma table_passes (self : Football) (competition_id matchday id : PyValue) (st : State) :
  resolves competition_id st = Some id ->
  passes matchday_pattern matchday = true ->
  exists u, _generate_url self ("competitions/" ++ py_str id ++ "/leagueTable")
              (Dict (param "matchday" matchday)) = inr u
            /\ table self competition_id matchday st = one_get self u st.
Proof.
  intros Hid Hm. rewrite generate_url_dict. eexists. split; [reflexivity |].
  unfold table. erewrite bind_done by (apply lookup_competition_resolves; eassumption).
  unfold param. destruct (truthy matchday) eqn:T.
  - rewrite (passes_true _ _ Hm T). cbn [negb].
    erewrite bind_done by reflexivity.
    apply send_one_get. apply generate_url_dict.
  - erewrite bind_done by reflexivity.
    apply send_one_get. rewrite (generate_url_falsy _ _ _ T). apply generate_url_dict.
Qed.

(** A validation block of the form
    [if v: v = str(v); if not pattern.match(v): raise ...; query_params[name] = v]. *)
Lemma check_block (pattern : Re.regex) (v : PyValue) (name msg : string)
    (query_params : dict string) (st : State) :
  (if truthy v then
     let s := py_str v in
     if negb (Re.re_match pattern s)
     then raise (ValueError msg)
     else ret (dict_set name s query_params)
   else ret query_params) st
  = if passes pattern v
    then (Done (if truthy v then dict_set name (py_str v) query_params
                else query_params), st)
    else (Raised (ValueError msg), st).
Proof.
  unfold passes. destruct (truthy v); cbn [negb orb]; [| reflexivity].
  destruct (Re.re_match pattern (py_str v)); reflexivity.
Qed.

Lemma param_first (name : string) (v : PyValue) :
  (if truthy v then dict_set name (py_str v) [] else []) = param name v.
Proof. unfold param. destruct (truthy v); reflexivity. Qed.

Lemma param_next (k1 k2 : string) (v1 v2 : PyValue) :
  (k1 =? k2) = false ->
  (if truthy v2 then dict_set k2 (py_str v2) (param k1 v1) else param k1 v1)
  = (param k1 v1 ++ param k2 v2)%list.
Proof.
  intro H. unfold param.
  destruct (truthy v1); destruct (truthy v2); simpl; rewrite ?H; reflexivity.
Qed.

Lemma passes_false (pattern : Re.regex) (v : PyValue) :
  truthy v = true -> Re.re_match pattern (py_str v) = false -> passes pattern v = false.
Proof. unfold passes. intros -> ->. reflexivity. Qed.

Lemma passes_falsy (pattern : Re.regex) (v : PyValue) :
  truthy v = false -> passes pattern v = true.
Proof. unfold passes. intros ->. reflexivity. Qed.

Lemma competition_fixtures_passes (self : Football)
    (competition_id matchday time_frame id : PyValue) (st : State) :
  resolves competition_id st = Some id ->
  passes matchday_pattern matchday = true ->
  passes time_frame_pattern time_frame = true ->
  exists u, _generate_url self ("competitions/" ++ py_str id ++ "/fixtures")
              (Dict (param "matchday" matchday ++ param "timeFrame" time_frame)) = inr u
            /\ competition_fixtures self competition_id matchday time_frame st
               = one_get self u st.
Proof.
  intros Hid Hm Ht. rewrite generate_url_dict. eexists. split; [reflexivity |].
  unfold competition_fixtures.
  erewrite bind_done by (apply lookup_competition_resolves; eassumption). cbv beta iota zeta.
  erewrite bind_done by (rewrite check_block, Hm; reflexivity). cbv beta iota zeta.
  rewrite param_first.
  erewrite bind_done by (rewrite check_block, Ht; reflexivity). cbv beta iota zeta.
  rewrite param_next by reflexivity.
  apply send_one_get. apply generate_url_dict.
Qed.

Lemma league_block (v : PyValue) (query_params : dict string) (st : State) :
  (if truthy v then
     known <- is_league_code v ;;
     if negb known
     then raise (ValueError "league_code is invalid.")
     else ret (dict_set "league" (py_str v) query_params)
   else ret query_params) st
  = if league_passes v st
    then (Done (if truthy v then dict_set "league" (py_str v) query_params
                else query_params), st)
    else (Raised (ValueError "league_code is invalid."), st).
Proof.
  unfold league_passes, bind, is_league_code.
  destruct (truthy v); cbn [negb orb]; [| reflexivity].
  destruct (in_keys v (league_table st)); reflexivity.
Qed.

Lemma fixtures_passes (self : Football) (time_frame league_code : PyValue) (st : State) :
  passes time_frame_pattern time_frame = true ->
  league_passes league_code st = true ->
  exists u, _generate_url self "fixtures"
              (Dict (param "timeFrame" time_frame ++ param "league" league_code)) = inr u
            /\ fixtures self time_frame league_code st = one_get self u st.
Proof.
  intros Ht Hl. rewrite generate_url_root by auto. eexists. split; [reflexivity |].
  unfold fixtures. cbv beta iota zeta.
  erewrite bind_done by (rewrite check_block, Ht; reflexivity). cbv beta iota zeta.
  rewrite param_first.
  erewrite bind_done by (rewrite league_block, Hl; reflexivity). cbv beta iota zeta.
  rewrite param_next by reflexivity.
  apply send_one_get. apply generate_url_root. auto.
Qed.

Lemma venue_block (v : PyValue) (query_params : dict string) (st : State) :
  (if truthy v then
     if negb (eq_str v "home" || eq_str v "away")
     then raise (ValueError "venue is invalid.")
     else ret (dict_set "venue" (py_str v) query_params)
   else ret query_params) st
  = if venue_passes v
    then (Done (if truthy v then dict_set "venue" (py_str v) query_params
                else query_params), st)
    else (Raised (ValueError "venue is invalid."), st).
Proof.
  unfold venue_passes. destruct (truthy v); cbn [negb orb]; [| reflexivity].
  destruct (eq_str v "home" || eq_str v "away"); reflexivity.
Qed.

Lemma param_last (k1 k2 k3 : string) (v1 v2 v3 : PyValue) :
  (k1 =? k3) = false -> (k2 =? k3) = false ->
  (if truthy v3 then dict_set k3 (py_str v3) (param k1 v1 ++ param k2 v2)%list
   else (param k1 v1 ++ param k2 v2)%list)
  = (param k1 v1 ++ param k2 v2 ++ param k3 v3)%list.
Proof.
  intros H1 H2. unfold param.
  destruct (truthy v1); destruct (truthy v2); destruct (truthy v3); simpl;
    rewrite ?H1, ?H2; reflexivity.
Qed.

Lemma team_fixtures_passes (self : Football)
    (team_id season time_frame venue : PyValue) (st : State) :
  passes season_pattern season = true ->
  passes time_frame_pattern time_frame = true ->
  venue_passes venue = true ->
  exists u, _generate_url self ("teams/" ++ py_str team_id ++ "/fixtures")
              (Dict (param "season" season ++ param "timeFrame" time_frame
                     ++ param "venue" venue)) = inr u
            /\ team_fixtures self team_id season time_frame venue st = one_get self u st.
Proof.
  intros Hs Ht Hv. rewrite generate_url_dict. eexists. split; [reflexivity |].
  unfold team_fixtures. cbv beta iota zeta.
  erewrite bind_done by (rewrite check_block, Hs; reflexivity). cbv beta iota zeta.
  rewrite param_first.
  erewrite bind_done by (rewrite check_block, Ht; reflexivity). cbv beta iota zeta.
  rewrite param_next by reflexivity.
  erewrite bind_done by (rewrite venue_block, Hv; reflexivity). cbv beta iota zeta.
  rewrite param_last by reflexivity.
  apply send_one_get. apply generate_url_dict.
Qed.

(** ** The module global is only read *)

Lemma preserves_ret {A : Type} (a : A) : preserves (ret a).
Proof. intro st. split; reflexivity. Qed.

Lemma preserves_raise {A : Type} (e : Exn) : preserves (@raise A e).
Proof. intro st. split; reflexivity. Qed.

Lemma preserves_lift {A : Type} (r : Exn + A) : preserves (lift r).
Proof. destruct r; [apply preserves_raise | apply preserves_ret]. Qed.

Lemma preserves_bind {A B : Type} (m : M A) (k : A -> M B) :
  preserves m -> (forall a, preserves (k a)) -> preserves (bind m k).
Proof.
  intros Hm Hk st. unfold bind. specialize (Hm st).
  destruct (m st) as [[a | e] st']; cbn [snd] in *.
  - destruct (Hk a st') as [H1 H2]. destruct Hm as [H3 H4].
    rewrite H1, H2. auto.
  - exact Hm.
Qed.

Lemma preserves_get (u : string) (h : dict PyValue) : preserves (requests_get_json u h).
Proof.
  intro st. unfold requests_get_json. destruct (service st _); split; reflexivity.
Qed.

Lemma preserves_lookup (v : PyValue) : preserves (lookup_competition v).
Proof.
  intro st. unfold lookup_competition.
  destruct v; try (split; reflexivity).
  destruct (dict_get s (league_table st)); split; reflexivity.
Qed.

Lemma preserves_is_league_code (v : PyValue) : preserves (is_league_code v).
Proof. intro st. split; reflexivity. Qed.

Ltac preserves_tac :=
  repeat first
    [ apply preserves_ret
    | apply preserves_raise
    | apply preserves_lift
    | apply preserves_get
    | apply preserves_lookup
    | apply preserves_is_league_code
    | apply preserves_bind; [| intros ?]
    | match goal with
      | |- preserves (if ?b then _ else _) => destruct b
      | |- preserves (match ?x with _ => _ end) => destruct x
      end ].

Lemma invoke_preserves (self : Football) (c : Call) : preserves (invoke self c).
Proof.
  destruct c; cbn [invoke];
    unfold competitions, teams, table, competition_fixtures, fixtures, fixture,
           team_fixtures, team, players;
    cbv zeta; preserves_tac.
Qed.

Lemma session_preserves (self : Football) (calls : list Call) (st : State) :
  league_table (session self calls st) = league_table st.
Proof.
  revert st. induction calls as [| c calls IH]; intro st; cbn [session]; [reflexivity |].
  rewrite IH. apply invoke_preserves.
Qed.

(** ** Further facts *)

Lemma time_frame_exact_begins (t : string) :
  time_frame_exact t = true ->
  begins_with_time_frame t = true /\ truthy (PyStr t) = true.
Proof.
  unfold time_frame_exact, begins_with_time_frame.
  destruct t as [| c d]; [discriminate |].
  intro H. split; [| reflexivity].
  apply orb_true_iff in H as [H | H].
  - apply String.eqb_eq in H. injection H as -> ->. reflexivity.
  - repeat (let H' := fresh "H" in apply andb_true_iff in H as [H H']).
    rewrite H. destruct d as [| d0 d']; [discriminate |].
    unfold Str.forall_chars in *. cbn [list_ascii_of_string forallb] in *.
    match goal with X : _ && _ = true |- _ => apply andb_true_iff in X as [X _]; rewrite X end.
    apply orb_true_r.
Qed.

Lemma passes_time_frame_exact (t : string) :
  time_frame_exact t = true -> passes time_frame_pattern (PyStr t) = true.
Proof.
  intro H. apply time_frame_exact_begins in H as [B T].
  unfold passes. rewrite T. cbn [negb orb py_str].
  rewrite time_frame_pattern_match. exact B.
Qed.

Lemma param_truthy (name : string) (v : PyValue) :
  truthy v = true -> param name v = [(name, py_str v)].
Proof. unfold param. intros ->. reflexivity. Qed.

Lemma urlencode_snoc (d : dict string) (k v : string) :
  UrlLib.urlencode (d ++ [(k, v)])
  = (match d with [] => "" | _ :: _ => UrlLib.urlencode d ++ "&" end)
    ++ UrlLib.quote_plus k ++ "=" ++ UrlLib.quote_plus v.
Proof.
  unfold UrlLib.urlencode. induction d as [| kv d IH]; [reflexivity |].
  cbn [app map]. destruct d as [| kv' d].
  - cbn [app map Str.join]. rewrite !StrFacts.append_assoc. reflexivity.
  - cbn [app map] in *. cbn [Str.join] in *. rewrite IH.
    rewrite !StrFacts.append_assoc. reflexivity.
Qed.

Lemma query_string_snoc (d : dict string) (k v : string) :
  query_string (d ++ [(k, v)]) = "?" ++ UrlLib.urlencode (d ++ [(k, v)]).
Proof. destruct d; reflexivity. Qed.

Lemma in_keys_In {V : Type} (code : string) (d : dict V) :
  in_keys (PyStr code) d = true -> In code (map fst d).
Proof.
  unfold in_keys. induction d as [| [k v] d IH]; cbn [dict_get map fst In].
  - discriminate.
  - destruct (k =? code) eqn:E.
    + intros _. left. apply String.eqb_eq. exact E.
    + intro H. right. apply IH. exact H.
Qed.

Lemma generate_url_plain (self : Football) (action : string) :
  ((action =? "competitions") || (action =? "fixtures")) = false ->
  _generate_url self action (Dict []) = inr (UrlLib.urljoin API_URL action).
Proof.
  intro H. rewrite generate_url_dict, H. cbn [query_string].
  rewrite StrFacts.append_nil_r. reflexivity.
Qed.

(** ** The library models on sample inputs *)

Example urljoin_samples :
  map (UrlLib.urljoin API_URL)
      ["competitions/445/leagueTable?matchday=5"; "fixtures/?timeFrame=n7&league=PL";
       "teams/../x"; "teams//fixtures"; "teams/a;b/fixtures"; "teams/a;"; "teams/a:b";
       "teams/."; "teams/a?b#c"; " teams/5"; "//x/y"; "/abs"; "http:foo"]
  = ["http://api.football-data.org/v1/competitions/445/leagueTable?matchday=5";
     "http://api.football-data.org/v1/fixtures/?timeFrame=n7&league=PL";
     "http://api.football-data.org/v1/x";
     "http://api.football-data.org/v1/teams/fixtures";
     "http://api.football-data.org/v1/teams/a;b/fixtures";
     "http://api.football-data.org/v1/teams/a";
     "http://api.football-data.org/v1/teams/a:b";
     "http://api.football-data.org/v1/teams/";
     "http://api.football-data.org/v1/teams/a?b#c";
     "http://api.football-data.org/v1/teams/5";
     "http://x/y";
     "http://api.football-data.org/abs";
     "http://api.football-data.org/v1/foo"].
Proof. vm_compute. reflexivity. Qed.

Example urlencode_samples :
  UrlLib.urlencode [("a b", "c&d=~_.-"); ("x", "/:?#")] = "a+b=c%26d%3D~_.-&x=%2F%3A%3F%23"
  /\ UrlLib.quote_plus (String (ascii_of_nat 233) "") = "%C3%A9"
  /\ UrlLib.quote_plus (String (ascii_of_nat 127) (String (ascii_of_nat 128) "")) = "%7F%C2%80".
Proof. vm_compute. repeat split. Qed.

Example re_match_samples :
  map (Re.re_match season_pattern) ["2019"; "20199"; "99"; "20x9"; ""]
  = [true; true; false; false; false]
  /\ map (Re.re_match matchday_pattern) ["5"; "38"; "5x"; "-1"; "x5"]
     = [true; true; true; false; false]
  /\ map (Re.re_match time_frame_pattern) ["p"; "n7"; "n45"; "n123"; "n10"; "px"; "n0"; "n"; "x5"]
     = [true; true; true; true; true; true; false; false; false].
Proof. vm_compute. repeat split. Qed.

Example py_str_samples :
  map py_str [PyNone; PyBool true; PyInt 0; PyInt 445; PyInt (-15); PyStr "PL"]
  = ["None"; "True"; "0"; "445"; "-15"; "PL"].
Proof. vm_compute. reflexivity. Qed.

(* ===================================================================== *)
(** * The specification, property by property *)
(* ===================================================================== *)

(** C1: [table("PL", matchday=5)] builds exactly the URL
    [http://api.football-data.org/v1/competitions/445/leagueTable?matchday=5]
    and issues exactly one GET, whose header [X-Auth-Token] is the API key the
    client was constructed with. The matchday may be the integer or its text. *)
Theorem C1_table_PL_matchday_5 (key : PyValue) (service : Request -> Response)
    (log : list Request) :
  let u := "http://api.football-data.org/v1/competitions/445/leagueTable?matchday=5" in
  let req := mkRequest u [("X-Auth-Token", key)] in
  let outcome := match service req with
                 | Decoded body => Done (RJson body)
                 | Failed e => Raised e
                 end in
  _generate_url (init key) "competitions/445/leagueTable" (Dict [("matchday", "5")]) = inr u
  /\ table (init key) (PyStr "PL") (PyInt 5) (imported service log)
     = (outcome, imported service (log ++ [req]))
  /\ table (init key) (PyStr "PL") (PyStr "5") (imported service log)
     = (outcome, imported service (log ++ [req])).
Proof.
  cbv zeta. split; [vm_compute; reflexivity |].
  split; vm_compute; destruct (service _); reflexivity.
Qed.

(** C2, as stated, fails: the season ["20199"], which the claim lists, passes
    the check of both methods, and so does an empty season. *)
Lemma C2_counterexample :
  let self := init (PyStr "key") in
  let hdr := [("X-Auth-Token", PyStr "key")] in
  four_digits "20199" = false
  /\ competitions self (PyStr "20199") (imported null_service [])
     = (Done (RJson JNull),
        imported null_service
          [mkRequest "http://api.football-data.org/v1/competitions/?season=20199" hdr])
  /\ team_fixtures self (PyInt 66) (PyStr "20199") PyNone PyNone (imported null_service [])
     = (Done (RJson JNull),
        imported null_service
          [mkRequest "http://api.football-data.org/v1/teams/66/fixtures?season=20199" hdr])
  /\ four_digits "" = false
  /\ competitions self (PyStr "") (imported null_service [])
     = (Done (RJson JNull),
        imported null_service
          [mkRequest "http://api.football-data.org/v1/competitions/" hdr]).
Proof. cbv zeta. repeat split; vm_compute; reflexivity. Qed.

(** C2, amended: for every non-empty (truthy) season whose text does not
    begin with four decimal digits, such as ["99"] and ["20x9"],
    [competitions] and [team_fixtures] raise [ValueError("season is invalid.")]
    and issue no request. *)
Theorem C2_season_validation (self : Football)
    (team_id season time_frame venue : PyValue) (st : State) :
  truthy season = true ->
  begins_with_digits 4 (py_str season) = false ->
  competitions self season st = (Raised (ValueError "season is invalid."), st)
  /\ team_fixtures self team_id season time_frame venue st
     = (Raised (ValueError "season is invalid."), st).
Proof.
  intros T D.
  assert (P : passes season_pattern season = false).
  { apply passes_false; [exact T |]. rewrite season_pattern_match. exact D. }
  split.
  - unfold competitions. apply bind_raised.
    rewrite T. cbv zeta. rewrite season_pattern_match, D. reflexivity.
  - unfold team_fixtures. cbv zeta. apply bind_raised.
    rewrite check_block, P. reflexivity.
Qed.

Lemma C2_season_validation_witness :
  let self := init (PyStr "key") in
  let st := imported null_service [] in
  truthy (PyStr "20x9") = true
  /\ begins_with_digits 4 (py_str (PyStr "20x9")) = false
  /\ competitions self (PyStr "20x9") st = (Raised (ValueError "season is invalid."), st)
  /\ team_fixtures self (PyInt 66) (PyStr "20x9") (PyStr "n7") (PyStr "home") st
     = (Raised (ValueError "season is invalid."), st).
Proof.
  cbv zeta. split; [reflexivity |]. split; [reflexivity |].
  apply (C2_season_validation (init (PyStr "key")) (PyInt 66) (PyStr "20x9")
           (PyStr "n7") (PyStr "home") (imported null_service [])); reflexivity.
Defined.

(** C3, as stated, fails on both sides: ["n123"], which the claim lists as
    rejected, is accepted; ["n0"] has the shape of the claim and is rejected;
    and the empty text, which has not the shape, raises nothing. *)
Lemma C3_counterexample :
  let self := init (PyStr "key") in
  let hdr := [("X-Auth-Token", PyStr "key")] in
  let st := imported null_service [] in
  time_frame_shape "n123" = false
  /\ fixtures self (PyStr "n123") PyNone st
     = (Done (RJson JNull),
        imported null_service
          [mkRequest "http://api.football-data.org/v1/fixtures/?timeFrame=n123" hdr])
  /\ time_frame_shape "n0" = true
  /\ fixtures self (PyStr "n0") PyNone st = (Raised (ValueError "time_frame is invalid."), st)
  /\ time_frame_shape "" = false
  /\ team_fixtures self (PyInt 66) PyNone (PyStr "") PyNone st
     = (Done (RJson JNull),
        imported null_service
          [mkRequest "http://api.football-data.org/v1/teams/66/fixtures" hdr]).
Proof. cbv zeta. repeat split; vm_compute; reflexivity. Qed.

(** C3, amended. (a) For every time frame that is [p], or [n] followed by one
    or two digits from 1 to 9, the check of [competition_fixtures], [fixtures]
    and [team_fixtures] passes: when the other arguments pass theirs, exactly
    one GET is issued and [timeFrame] carries the value. (b) For every
    non-empty (truthy) time frame whose text begins neither with [p] nor with
    [n] and a digit from 1 to 9, such as ["x5"] and ["n0"], [fixtures] and
    [team_fixtures] raise a [ValueError] and issue no request, and so does
    [competition_fixtures] when the competition is numeric or a known
    mnemonic. *)
Theorem C3_time_frame_validation (self : Football) (st : State) :
  (forall (t : string) (competition_id id matchday league_code team_id season venue : PyValue),
     time_frame_exact t = true ->
     (resolves competition_id st = Some id ->
      passes matchday_pattern matchday = true ->
      exists u,
        _generate_url self ("competitions/" ++ py_str id ++ "/fixtures")
          (Dict (param "matchday" matchday ++ [("timeFrame", t)])) = inr u
        /\ competition_fixtures self competition_id matchday (PyStr t) st
           = one_get self u st)
     /\ (league_passes league_code st = true ->
         exists u,
           _generate_url self "fixtures"
             (Dict ([("timeFrame", t)] ++ param "league" league_code)) = inr u
           /\ fixtures self (PyStr t) league_code st = one_get self u st)
     /\ (passes season_pattern season = true ->
         venue_passes venue = true ->
         exists u,
           _generate_url self ("teams/" ++ py_str team_id ++ "/fixtures")
             (Dict (param "season" season ++ [("timeFrame", t)] ++ param "venue" venue))
           = inr u
           /\ team_fixtures self team_id season (PyStr t) venue st = one_get self u st))
  /\
  (forall (time_frame competition_id id matchday league_code team_id season venue : PyValue),
     truthy time_frame = true ->
     begins_with_time_frame (py_str time_frame) = false ->
     (resolves competition_id st = Some id ->
      exists msg,
        competition_fixtures self competition_id matchday time_frame st
        = (Raised (ValueError msg), st))
     /\ fixtures self time_frame league_code st
        = (Raised (ValueError "time_frame is invalid."), st)
     /\ exists msg,
          team_fixtures self team_id season time_frame venue st
          = (Raised (ValueError msg), st)).
Proof.
  split.
  - intros t competition_id id matchday league_code team_id season venue Ht.
    pose proof (passes_time_frame_exact t Ht) as P.
    destruct (time_frame_exact_begins t Ht) as [_ T].
    pose proof (param_truthy "timeFrame" (PyStr t) T) as E. cbn [py_str] in E.
    rewrite <- E.
    split; [| split].
    + intros Hid Hm. apply competition_fixtures_passes; assumption.
    + intros Hl. apply fixtures_passes; assumption.
    + intros Hs Hv. apply team_fixtures_passes; assumption.
  - intros time_frame competition_id id matchday league_code team_id season venue T B.
    assert (P : passes time_frame_pattern time_frame = false).
    { apply passes_false; [exact T |]. rewrite time_frame_pattern_match. exact B. }
    split; [| split].
    + intros Hid. unfold competition_fixtures.
      erewrite bind_done by (apply lookup_competition_resolves; eassumption).
      cbv beta iota zeta.
      destruct (passes matchday_pattern matchday) eqn:Pm.
      * erewrite bind_done by (rewrite check_block, Pm; reflexivity).
        eexists. apply bind_raised. rewrite check_block, P. reflexivity.
      * eexists. apply bind_raised. rewrite check_block, Pm. reflexivity.
    + unfold fixtures. cbv zeta. apply bind_raised. rewrite check_block, P. reflexivity.
    + unfold team_fixtures. cbv zeta.
      destruct (passes season_pattern season) eqn:Ps.
      * erewrite bind_done by (rewrite check_block, Ps; reflexivity).
        eexists. apply bind_raised. rewrite check_block, P. reflexivity.
      * eexists. apply bind_raised. rewrite check_block, Ps. reflexivity.
Qed.

Lemma C3_time_frame_validation_witness :
  let self := init (PyStr "key") in
  let st := imported null_service [] in
  time_frame_exact "n45" = true
  /\ (exists u,
        _generate_url self "fixtures" (Dict [("timeFrame", "n45")]) = inr u
        /\ fixtures self (PyStr "n45") PyNone st = one_get self u st)
  /\ truthy (PyStr "x5") = true
  /\ begins_with_time_frame (py_str (PyStr "x5")) = false
  /\ fixtures self (PyStr "x5") PyNone st
     = (Raised (ValueError "time_frame is invalid."), st).
Proof.
  cbv zeta.
  destruct (C3_time_frame_validation (init (PyStr "key")) (imported null_service []))
    as [A B].
  split; [reflexivity |]. split.
  - destruct (A "n45" PyNone PyNone PyNone PyNone PyNone PyNone PyNone eq_refl)
      as (_ & F & _).
    exact (F eq_refl).
  - split; [reflexivity |]. split; [reflexivity |].
    destruct (B (PyStr "x5") PyNone PyNone PyNone PyNone PyNone PyNone PyNone
                eq_refl eq_refl) as (_ & F & _).
    exact F.
Defined.

(** C4: every mnemonic of the table resolves to the documented identifier,
    the table has no other key, and no sequence of calls of the nine public
    methods changes the table. *)
Theorem C4_league_code_table :
  Forall (fun entry =>
            forall (self : Football) (service : Request -> Response) (log : list Request),
              lookup_competition (PyStr (fst entry)) (imported service log)
              = (Done (inr (PyInt (snd entry))), imported service log)
              /\ teams self (PyStr (fst entry)) (imported service log)
                 = one_get self
                     (API_URL ++ "competitions/" ++ Str.of_Z (snd entry) ++ "/teams")
                     (imported service log))
         documented_ids
  /\ map fst LEAGUE_CODE = map fst documented_ids
  /\ (forall (self : Football) (calls : list Call) (st : State),
        league_table (session self calls st) = league_table st)
  /\ (forall (self : Football) (calls : list Call) (service : Request -> Response)
             (log : list Request),
        league_table (session self calls (imported service log)) = LEAGUE_CODE).
Proof.
  split; [| split; [reflexivity | split]].
  - unfold documented_ids.
    repeat (apply Forall_cons; [intros self service log; cbn [fst snd]; split;
                                [reflexivity |] |]);
      try apply Forall_nil.
    all: unfold teams;
      (erewrite bind_done by reflexivity); cbv beta iota;
      apply send_one_get; vm_compute; reflexivity.
  - intros. apply session_preserves.
  - intros. rewrite session_preserves. reflexivity.
Qed.

(** C5: for every [str] competition identifier that is not a key of the
    league code table, [teams], [table] and [competition_fixtures] yield the
    [KeyError] of the lookup (it is handed back as the result of the call)
    and the state is unchanged: no GET is issued. *)
Theorem C5_unknown_mnemonic (self : Football) (code : string)
    (matchday time_frame : PyValue) (st : State) :
  dict_get code (league_table st) = None ->
  teams self (PyStr code) st = (Done (RError (KeyError code)), st)
  /\ table self (PyStr code) matchday st = (Done (RError (KeyError code)), st)
  /\ competition_fixtures self (PyStr code) matchday time_frame st
     = (Done (RError (KeyError code)), st).
Proof.
  intro H.
  assert (L : lookup_competition (PyStr code) st = (Done (inl (KeyError code)), st)).
  { unfold lookup_competition. rewrite H. reflexivity. }
  repeat split.
  - unfold teams. erewrite bind_done by exact L. reflexivity.
  - unfold table. erewrite bind_done by exact L. reflexivity.
  - unfold competition_fixtures. erewrite bind_done by exact L. reflexivity.
Qed.

Lemma C5_unknown_mnemonic_witness :
  let self := init (PyStr "key") in
  let st := imported null_service [] in
  dict_get "XX" (league_table st) = None
  /\ teams self (PyStr "XX") st = (Done (RError (KeyError "XX")), st)
  /\ table self (PyStr "XX") (PyInt 5) st = (Done (RError (KeyError "XX")), st)
  /\ competition_fixtures self (PyStr "XX") (PyInt 5) (PyStr "n7") st
     = (Done (RError (KeyError "XX")), st).
Proof.
  cbv zeta. split; [reflexivity |].
  apply (C5_unknown_mnemonic (init (PyStr "key")) "XX" (PyInt 5) (PyStr "n7")
           (imported null_service [])).
  reflexivity.
Defined.

(** C6: [_generate_url] is a function of the action and the query parameters
    alone (the client it is called on plays no part, and it touches no
    state), and for the actions ["competitions"] and ["fixtures"] the URL is
    the base URL, the action, a slash, and then the query string if any. *)
Theorem C6_generate_url_pure_and_slash :
  (forall (self1 self2 : Football) (action : string) (query_params : QueryParams),
     _generate_url self1 action query_params = _generate_url self2 action query_params)
  /\ (forall (self : Football) (d : dict string),
        _generate_url self "competitions" (Dict d)
        = inr ("http://api.football-data.org/v1/competitions/" ++ query_string d)
        /\ _generate_url self "fixtures" (Dict d)
           = inr ("http://api.football-data.org/v1/fixtures/" ++ query_string d))
  /\ (forall (self : Football) (v : PyValue),
        truthy v = false ->
        _generate_url self "competitions" (Scalar v)
        = inr "http://api.football-data.org/v1/competitions/"
        /\ _generate_url self "fixtures" (Scalar v)
           = inr "http://api.football-data.org/v1/fixtures/").
Proof.
  split; [reflexivity |]. split.
  - intros self d. split; rewrite generate_url_root by auto; reflexivity.
  - intros self v T.
    split; rewrite (generate_url_falsy _ _ _ T), generate_url_root by auto; reflexivity.
Qed.

Lemma C6_generate_url_pure_and_slash_witness :
  _generate_url (init PyNone) "competitions" (Scalar (PyInt 0))
  = inr "http://api.football-data.org/v1/competitions/"
  /\ _generate_url (init PyNone) "fixtures" (Dict [("timeFrame", "n7"); ("league", "PL")])
     = inr "http://api.football-data.org/v1/fixtures/?timeFrame=n7&league=PL".
Proof.
  destruct C6_generate_url_pure_and_slash as (_ & D & S).
  split.
  - exact (proj1 (S (init PyNone) (PyInt 0) eq_refl)).
  - exact (proj2 (D (init PyNone) [("timeFrame", "n7"); ("league", "PL")])).
Defined.

(** C7, as stated, fails: the matchday ["5x"] is accepted, an empty matchday
    raises nothing, and with an unknown mnemonic the call hands back the
    [KeyError] of the lookup instead of raising a validation error. *)
Lemma C7_counterexample :
  let self := init (PyStr "key") in
  let hdr := [("X-Auth-Token", PyStr "key")] in
  let st := imported null_service [] in
  decimal_digits "5x" = false
  /\ table self (PyStr "PL") (PyStr "5x") st
     = (Done (RJson JNull),
        imported null_service
          [mkRequest
             "http://api.football-data.org/v1/competitions/445/leagueTable?matchday=5x"
             hdr])
  /\ decimal_digits "" = false
  /\ competition_fixtures self (PyInt 445) (PyStr "") PyNone st
     = (Done (RJson JNull),
        imported null_service
          [mkRequest "http://api.football-data.org/v1/competitions/445/fixtures" hdr])
  /\ decimal_digits "abc" = false
  /\ table self (PyStr "XX") (PyStr "abc") st = (Done (RError (KeyError "XX")), st).
Proof. cbv zeta. repeat split; vm_compute; reflexivity. Qed.

(** C7, amended: for every non-empty (truthy) matchday whose text does not
    begin with a decimal digit, such as ["abc"] and [-1], [table] and
    [competition_fixtures], called with a numeric competition or a known
    mnemonic, raise [ValueError("matchday is invalid.")] and issue no
    request. *)
Theorem C7_matchday_validation (self : Football)
    (competition_id id matchday time_frame : PyValue) (st : State) :
  resolves competition_id st = Some id ->
  truthy matchday = true ->
  begins_with_digits 1 (py_str matchday) = false ->
  table self competition_id matchday st = (Raised (ValueError "matchday is invalid."), st)
  /\ competition_fixtures self competition_id matchday time_frame st
     = (Raised (ValueError "matchday is invalid."), st).
Proof.
  intros Hid T D.
  assert (P : passes matchday_pattern matchday = false).
  { apply passes_false; [exact T |]. rewrite matchday_pattern_match. exact D. }
  split.
  - unfold table.
    erewrite bind_done by (apply lookup_competition_resolves; eassumption).
    cbv beta iota zeta. apply bind_raised.
    rewrite T. rewrite matchday_pattern_match, D. reflexivity.
  - unfold competition_fixtures.
    erewrite bind_done by (apply lookup_competition_resolves; eassumption).
    cbv beta iota zeta. apply bind_raised. rewrite check_block, P. reflexivity.
Qed.

Lemma C7_matchday_validation_witness :
  let self := init (PyStr "key") in
  let st := imported null_service [] in
  resolves (PyStr "PL") st = Some (PyInt 445)
  /\ truthy (PyInt (-1)) = true
  /\ begins_with_digits 1 (py_str (PyInt (-1))) = false
  /\ table self (PyStr "PL") (PyInt (-1)) st
     = (Raised (ValueError "matchday is invalid."), st)
  /\ competition_fixtures self (PyStr "PL") (PyInt (-1)) (PyStr "n7") st
     = (Raised (ValueError "matchday is invalid."), st).
Proof.
  cbv zeta. split; [reflexivity |]. split; [reflexivity |]. split; [reflexivity |].
  apply (C7_matchday_validation (init (PyStr "key")) (PyStr "PL") (PyInt 445)
           (PyInt (-1)) (PyStr "n7") (imported null_service [])); reflexivity.
Defined.

(** C8, as stated, fails: an empty venue is neither ["home"] nor ["away"],
    yet no error is raised and the request goes out without a venue. *)
Lemma C8_counterexample :
  let self := init (PyStr "key") in
  let hdr := [("X-Auth-Token", PyStr "key")] in
  eq_str (PyStr "") "home" = false
  /\ eq_str (PyStr "") "away" = false
  /\ team_fixtures self (PyInt 66) PyNone PyNone (PyStr "") (imported null_service [])
     = (Done (RJson JNull),
        imported null_service
          [mkRequest "http://api.football-data.org/v1/teams/66/fixtures" hdr]).
Proof. cbv zeta. repeat split; vm_compute; reflexivity. Qed.

(** C8, amended. (a) For every non-empty (truthy) venue other than exactly
    ["home"] or ["away"], [team_fixtures] raises a [ValueError] and issues no
    request; the error is the one of the venue when season and time frame
    pass their checks. (b) For ["home"] and ["away"], when season and time
    frame pass, exactly one GET is issued and the value is the [venue] query
    parameter, the last one of the query string. *)
Theorem C8_venue_validation (self : Football)
    (team_id season time_frame : PyValue) (st : State) :
  (forall venue : PyValue,
     truthy venue = true ->
     eq_str venue "home" = false ->
     eq_str venue "away" = false ->
     exists msg,
       team_fixtures self team_id season time_frame venue st
       = (Raised (ValueError msg), st)
       /\ (passes season_pattern season = true ->
           passes time_frame_pattern time_frame = true ->
           msg = "venue is invalid."))
  /\
  (forall v : string,
     v = "home" \/ v = "away" ->
     passes season_pattern season = true ->
     passes time_frame_pattern time_frame = true ->
     exists u q,
       _generate_url self ("teams/" ++ py_str team_id ++ "/fixtures")
         (Dict (param "season" season ++ param "timeFrame" time_frame ++ [("venue", v)]))
       = inr u
       /\ u = UrlLib.urljoin API_URL
                ("teams/" ++ py_str team_id ++ "/fixtures" ++ "?" ++ q ++ "venue=" ++ v)
       /\ team_fixtures self team_id season time_frame (PyStr v) st = one_get self u st).
Proof.
  split.
  - intros venue T Hh Ha.
    assert (V : venue_passes venue = false).
    { unfold venue_passes. rewrite T, Hh, Ha. reflexivity. }
    unfold team_fixtures. cbv zeta.
    destruct (passes season_pattern season) eqn:Ps.
    + erewrite bind_done by (rewrite check_block, Ps; reflexivity).
      cbv beta iota zeta.
      destruct (passes time_frame_pattern time_frame) eqn:Pt.
      * erewrite bind_done by (rewrite check_block, Pt; reflexivity).
        cbv beta iota zeta.
        eexists. split; [| reflexivity].
        apply bind_raised. rewrite venue_block, V. reflexivity.
      * eexists. split; [| discriminate].
        apply bind_raised. rewrite check_block, Pt. reflexivity.
    + eexists. split; [| discriminate].
      apply bind_raised. rewrite check_block, Ps. reflexivity.
  - intros v Hv Ps Pt.
    assert (V : venue_passes (PyStr v) = true) by (destruct Hv; subst; reflexivity).
    assert (E : param "venue" (PyStr v) = [("venue", v)]) by (destruct Hv; subst; reflexivity).
    destruct (team_fixtures_passes self team_id season time_frame (PyStr v) st Ps Pt V)
      as (u & Hu & Hrun).
    rewrite E in Hu.
    exists u.
    exists (match (param "season" season ++ param "timeFrame" time_frame)%list with
            | [] => ""
            | _ :: _ => UrlLib.urlencode (param "season" season ++ param "timeFrame" time_frame)
                        ++ "&"
            end).
    split; [exact Hu |]. split; [| exact Hrun].
    rewrite generate_url_dict in Hu. injection Hu as <-.
    change ((("teams/" ++ py_str team_id ++ "/fixtures" =? "competitions")
             || ("teams/" ++ py_str team_id ++ "/fixtures" =? "fixtures"))) with false.
    cbv iota. f_equal.
    rewrite app_assoc, query_string_snoc, urlencode_snoc.
    assert (Q : UrlLib.quote_plus v = v) by (destruct Hv; subst; reflexivity).
    rewrite Q. change (UrlLib.quote_plus "venue") with "venue".
    rewrite !StrFacts.append_assoc. reflexivity.
Qed.

Lemma C8_venue_validation_witness :
  let self := init (PyStr "key") in
  let st := imported null_service [] in
  (truthy (PyStr "Home") = true
   /\ eq_str (PyStr "Home") "home" = false
   /\ eq_str (PyStr "Home") "away" = false
   /\ exists msg,
        team_fixtures self (PyInt 66) (PyInt 2017) (PyStr "n7") (PyStr "Home") st
        = (Raised (ValueError msg), st))
  /\ (passes season_pattern (PyInt 2017) = true
      /\ passes time_frame_pattern (PyStr "n7") = true
      /\ exists u,
           _generate_url self "teams/66/fixtures"
             (Dict [("season", "2017"); ("timeFrame", "n7"); ("venue", "away")]) = inr u
           /\ team_fixtures self (PyInt 66) (PyInt 2017) (PyStr "n7") (PyStr "away") st
              = one_get self u st).
Proof.
  cbv zeta.
  destruct (C8_venue_validation (init (PyStr "key")) (PyInt 66) (PyInt 2017) (PyStr "n7")
              (imported null_service [])) as [A B].
  split.
  - split; [reflexivity |]. split; [reflexivity |]. split; [reflexivity |].
    destruct (A (PyStr "Home") eq_refl eq_refl eq_refl) as (msg & H & _).
    exists msg. exact H.
  - split; [reflexivity |]. split; [reflexivity |].
    destruct (B "away" (or_intror eq_refl) eq_refl eq_refl) as (u & q & Hu & _ & H).
    exists u. split; [exact Hu | exact H].
Defined.

(** C9, as stated, fails: an empty league code is no key of the table, yet
    no error is raised and the request goes out without a league. *)
Lemma C9_counterexample :
  let self := init (PyStr "key") in
  let hdr := [("X-Auth-Token", PyStr "key")] in
  in_keys (PyStr "") LEAGUE_CODE = false
  /\ fixtures self PyNone (PyStr "") (imported null_service [])
     = (Done (RJson JNull),
        imported null_service
          [mkRequest "http://api.football-data.org/v1/fixtures/" hdr]).
Proof. cbv zeta. repeat split; vm_compute; reflexivity. Qed.

(** C9, amended. (a) For every non-empty (truthy) league code that is not a
    key of the league code table, [fixtures] raises a [ValueError] and issues
    no request; the error is the one of the league code when the time frame
    passes its check. (b) A league code that is a key passes: when the time
    frame passes too, exactly one GET is issued and the code is the [league]
    query parameter; with no time frame the URL is
    [http://api.football-data.org/v1/fixtures/?league=<code>]. *)
Theorem C9_league_code_validation (self : Football) (time_frame : PyValue)
    (service : Request -> Response) (log : list Request) :
  (forall league_code : PyValue,
     truthy league_code = true ->
     in_keys league_code LEAGUE_CODE = false ->
     exists msg,
       fixtures self time_frame league_code (imported service log)
       = (Raised (ValueError msg), imported service log)
       /\ (passes time_frame_pattern time_frame = true -> msg = "league_code is invalid."))
  /\
  (forall code : string,
     in_keys (PyStr code) LEAGUE_CODE = true ->
     passes time_frame_pattern time_frame = true ->
     (exists u,
        _generate_url self "fixtures"
          (Dict (param "timeFrame" time_frame ++ [("league", code)])) = inr u
        /\ fixtures self time_frame (PyStr code) (imported service log)
           = one_get self u (imported service log))
     /\ (truthy time_frame = false ->
         fixtures self time_frame (PyStr code) (imported service log)
         = one_get self ("http://api.football-data.org/v1/fixtures/?league=" ++ code)
             (imported service log))).
Proof.
  split.
  - intros league_code T K.
    assert (L : league_passes league_code (imported service log) = false).
    { unfold league_passes. cbn [league_table imported]. rewrite T, K. reflexivity. }
    unfold fixtures. cbv zeta.
    destruct (passes time_frame_pattern time_frame) eqn:Pt.
    + erewrite bind_done by (rewrite check_block, Pt; reflexivity).
      cbv beta iota zeta.
      eexists. split; [| reflexivity].
      apply bind_raised. rewrite league_block, L. reflexivity.
    + eexists. split; [| discriminate].
      apply bind_raised. rewrite check_block, Pt. reflexivity.
  - intros code K Pt.
    assert (T : truthy (PyStr code) = true).
    { destruct code; [discriminate K | reflexivity]. }
    assert (L : league_passes (PyStr code) (imported service log) = true).
    { unfold league_passes. cbn [league_table imported]. rewrite K. apply orb_true_r. }
    assert (E : param "league" (PyStr code) = [("league", code)])
      by (apply param_truthy; exact T).
    destruct (fixtures_passes self time_frame (PyStr code) (imported service log) Pt L)
      as (u & Hu & Hrun).
    rewrite E in Hu. split.
    + exists u. split; assumption.
    + intro F. rewrite Hrun. f_equal.
      unfold param in Hu. rewrite F in Hu. cbn [app] in Hu.
      rewrite generate_url_root in Hu by auto. injection Hu as <-.
      apply in_keys_In in K. cbn [map fst LEAGUE_CODE In] in K.
      repeat (destruct K as [<- | K]; [reflexivity |]). contradiction.
Qed.

Lemma C9_league_code_validation_witness :
  let self := init (PyStr "key") in
  let st := imported null_service [] in
  (truthy (PyStr "XX") = true
   /\ in_keys (PyStr "XX") LEAGUE_CODE = false
   /\ exists msg, fixtures self (PyStr "n7") (PyStr "XX") st = (Raised (ValueError msg), st))
  /\ (in_keys (PyStr "CL") LEAGUE_CODE = true
      /\ passes time_frame_pattern PyNone = true
      /\ fixtures self PyNone (PyStr "CL") st
         = one_get self "http://api.football-data.org/v1/fixtures/?league=CL" st).
Proof.
  cbv zeta. split.
  - split; [reflexivity |]. split; [reflexivity |].
    destruct (C9_league_code_validation (init (PyStr "key")) (PyStr "n7") null_service [])
      as [A _].
    destruct (A (PyStr "XX") eq_refl eq_refl) as (msg & H & _).
    exists msg. exact H.
  - split; [reflexivity |]. split; [reflexivity |].
    destruct (C9_league_code_validation (init (PyStr "key")) PyNone null_service [])
      as [_ B].
    exact (proj2 (B "CL" eq_refl eq_refl) eq_refl).
Defined.

(** C10: an optional argument that is falsy (the integer 0, the empty text,
    [None], [False]) is skipped by its guard: the call behaves exactly as
    with [None] in that place, whatever the other arguments are; and when all
    optional arguments are falsy, no error is raised, exactly one GET is
    issued, and its URL is built from the action alone, with no query
    string appended. *)
Theorem C10_falsy_arguments_skipped (self : Football) (v v2 v3 : PyValue) (st : State) :
  truthy v = false ->
  truthy v2 = false ->
  truthy v3 = false ->
  (forall a b c : PyValue,
     competitions self v st = competitions self PyNone st
     /\ table self a v st = table self a PyNone st
     /\ competition_fixtures self a v c st = competition_fixtures self a PyNone c st
     /\ competition_fixtures self a b v st = competition_fixtures self a b PyNone st
     /\ fixtures self v b st = fixtures self PyNone b st
     /\ fixtures self a v st = fixtures self a PyNone st
     /\ team_fixtures self a v b c st = team_fixtures self a PyNone b c st
     /\ team_fixtures self a b v c st = team_fixtures self a b PyNone c st
     /\ team_fixtures self a b c v st = team_fixtures self a b c PyNone st)
  /\ competitions self v st
     = one_get self "http://api.football-data.org/v1/competitions/" st
  /\ fixtures self v v2 st = one_get self "http://api.football-data.org/v1/fixtures/" st
  /\ (forall competition_id id : PyValue,
        resolves competition_id st = Some id ->
        table self competition_id v st
        = one_get self
            (UrlLib.urljoin API_URL ("competitions/" ++ py_str id ++ "/leagueTable")) st
        /\ competition_fixtures self competition_id v v2 st
           = one_get self
               (UrlLib.urljoin API_URL ("competitions/" ++ py_str id ++ "/fixtures")) st)
  /\ (forall team_id : PyValue,
        team_fixtures self team_id v v2 v3 st
        = one_get self
            (UrlLib.urljoin API_URL ("teams/" ++ py_str team_id ++ "/fixtures")) st).
Proof.
  intros T T2 T3.
  assert (Pv : forall pattern w, truthy w = false -> passes pattern w = true)
    by (intros; apply passes_falsy; assumption).
  assert (E : forall name w, truthy w = false -> param name w = [])
    by (intros name w Hw; unfold param; rewrite Hw; reflexivity).
  split; [| split; [| split; [| split]]].
  - intros a b c.
    assert (G : forall action,
               _generate_url self action (Scalar v)
               = _generate_url self action (Scalar PyNone)).
    { intro action. rewrite (generate_url_falsy self action v T).
      symmetry. apply generate_url_falsy. reflexivity. }
    split; [| split].
    + unfold competitions, bind, ret. cbn [truthy]. rewrite T, G. reflexivity.
    + unfold table, bind, ret. cbn [truthy].
      destruct (lookup_competition a st) as [[[error | id] | e] st']; try reflexivity.
      rewrite T, G. reflexivity.
    + repeat split;
        unfold competition_fixtures, fixtures, team_fixtures, bind, ret;
        cbn [truthy]; rewrite T; reflexivity.
  - destruct (competitions_passes self v st (Pv _ _ T)) as (u & Hu & ->).
    rewrite (E _ _ T), generate_url_root in Hu by auto. injection Hu as <-. reflexivity.
  - assert (L : league_passes v2 st = true) by (unfold league_passes; rewrite T2; reflexivity).
    destruct (fixtures_passes self v v2 st (Pv _ _ T) L) as (u & Hu & ->).
    rewrite (E _ _ T), (E _ _ T2), generate_url_root in Hu by auto.
    injection Hu as <-. reflexivity.
  - intros competition_id id Hid. split.
    + destruct (table_passes self competition_id v id st Hid (Pv _ _ T)) as (u & Hu & ->).
      rewrite (E _ _ T), generate_url_plain in Hu by reflexivity.
      injection Hu as <-. reflexivity.
    + destruct (competition_fixtures_passes self competition_id v v2 id st Hid
                  (Pv _ _ T) (Pv _ _ T2)) as (u & Hu & ->).
      rewrite (E _ _ T), (E _ _ T2), generate_url_plain in Hu by reflexivity.
      injection Hu as <-. reflexivity.
  - intros team_id.
    assert (V : venue_passes v3 = true) by (unfold venue_passes; rewrite T3; reflexivity).
    destruct (team_fixtures_passes self team_id v v2 v3 st (Pv _ _ T) (Pv _ _ T2) V)
      as (u & Hu & ->).
    rewrite (E _ _ T), (E _ _ T2), (E _ _ T3), generate_url_plain in Hu by reflexivity.
    injection Hu as <-. reflexivity.
Qed.

(** The two calls the claim names: [table(445, matchday=0)] and
    [team_fixtures(66, venue="")]. *)
Lemma C10_falsy_arguments_skipped_witness :
  let self := init (PyStr "key") in
  let st := imported null_service [] in
  truthy (PyInt 0) = false
  /\ truthy (PyStr "") = false
  /\ truthy PyNone = false
  /\ table self (PyInt 445) (PyInt 0) st
     = one_get self "http://api.football-data.org/v1/competitions/445/leagueTable" st
  /\ team_fixtures self (PyInt 66) PyNone PyNone (PyStr "") st
     = one_get self "http://api.football-data.org/v1/teams/66/fixtures" st
  /\ team_fixtures self (PyInt 66) (PyInt 2017) (PyStr "n7") (PyStr "") st
     = team_fixtures self (PyInt 66) (PyInt 2017) (PyStr "n7") PyNone st.
Proof.
  cbv zeta. split; [reflexivity |]. split; [reflexivity |]. split; [reflexivity |].
  split; [| split].
  - destruct (C10_falsy_arguments_skipped (init (PyStr "key")) (PyInt 0) PyNone PyNone
                (imported null_service []) eq_refl eq_refl eq_refl) as (_ & _ & _ & H & _).
    exact (proj1 (H (PyInt 445) (PyInt 445) eq_refl)).
  - destruct (C10_falsy_arguments_skipped (init (PyStr "key")) PyNone PyNone (PyStr "")
                (imported null_service []) eq_refl eq_refl eq_refl) as (_ & _ & _ & _ & H).
    exact (H (PyInt 66)).
  - destruct (C10_falsy_arguments_skipped (init (PyStr "key")) (PyStr "") PyNone PyNone
                (imported null_service []) eq_refl eq_refl eq_refl) as (H & _).
    destruct (H (PyInt 66) (PyInt 2017) (PyStr "n7")) as (_ & _ & _ & _ & _ & _ & _ & _ & H9).
    exact H9.
Defined.

(* ===================================================================== *)
(** * Beyond the specification: what the methods do in every case *)
(* ===================================================================== *)

(** ** Identifiers in a path *)

Lemma digits_of_uint (d : Decimal.uint) :
  Str.forall_chars Str.is_digit (NilEmpty.string_of_uint d) = true.
Proof. induction d; cbn [NilEmpty.string_of_uint]; try reflexivity; exact IHd. Qed.

Lemma digits_of_uint_zero (d : Decimal.uint) :
  Str.forall_chars Str.is_digit (NilZero.string_of_uint d) = true
  /\ NilZero.string_of_uint d <> "".
Proof.
  split.
  - destruct d; try reflexivity; apply (digits_of_uint (_ d)).
  - destruct d; cbn; discriminate.
Qed.

Lemma forall_chars_weaken (p q : ascii -> bool) (s : string) :
  (forall c, p c = true -> q c = true) ->
  Str.forall_chars p s = true -> Str.forall_chars q s = true.
Proof.
  intros Hpq. unfold Str.forall_chars.
  induction s as [| a s IH]; cbn [list_ascii_of_string forallb]; [reflexivity |].
  intro H. apply andb_true_iff in H as [Ha Hs]. rewrite (Hpq a Ha), IH; auto.
Qed.

Lemma digit_segment_char (c : ascii) : Str.is_digit c = true -> segment_char c = true.
Proof.
  intro H. unfold segment_char, Str.is_alnum. rewrite H.
  rewrite orb_true_r. reflexivity.
Qed.

Lemma of_Z_nonneg (z : Z) :
  (0 <= z)%Z ->
  Str.forall_chars Str.is_digit (Str.of_Z z) = true /\ Str.of_Z z <> "".
Proof.
  intro H. unfold Str.of_Z. destruct z as [| p | p]; [| | lia].
  - split; [reflexivity | discriminate].
  - apply digits_of_uint_zero.
Qed.

Lemma of_Z_neg (z : Z) :
  (z < 0)%Z -> exists d, Str.of_Z z = String "-" d.
Proof.
  intro H. unfold Str.of_Z. destruct z as [| p | p]; [lia | lia |].
  eexists. reflexivity.
Qed.

Lemma of_Z_segment (z : Z) : segment (Str.of_Z z) = true.
Proof.
  unfold segment, Str.of_Z. destruct z as [| p | p]; [reflexivity | |].
  - cbn [Z.to_int NilZero.string_of_int].
    destruct (digits_of_uint_zero (Pos.to_uint p)) as [D N].
    apply andb_true_iff. split.
    + destruct (NilZero.string_of_uint (Pos.to_uint p)); [contradiction | reflexivity].
    + exact (forall_chars_weaken _ _ _ digit_segment_char D).
  - cbn [Z.to_int NilZero.string_of_int].
    destruct (digits_of_uint_zero (Pos.to_uint p)) as [D N].
    apply (forall_chars_weaken _ _ _ digit_segment_char) in D.
    unfold Str.forall_chars in *. cbn [list_ascii_of_string forallb negb String.eqb andb].
    exact D.
Qed.

Lemma py_str_segment (v : PyValue) : is_str v = false -> segment (py_str v) = true.
Proof.
  destruct v as [| [|] | z | s]; cbn [is_str py_str]; intro H;
    try reflexivity; [apply of_Z_segment | discriminate].
Qed.

Lemma resolves_segment (competition_id id : PyValue) (st : State) :
  resolves competition_id st = Some id ->
  is_str id = false /\ segment (py_str id) = true.
Proof.
  unfold resolves. destruct competition_id as [| b | z | s].
  - intros [= <-]. split; reflexivity.
  - intros [= <-]. split; [reflexivity | apply py_str_segment; reflexivity].
  - intros [= <-]. split; [reflexivity | apply of_Z_segment].
  - destruct (dict_get s (league_table st)); cbn [option_map]; [| discriminate].
    intros [= <-]. split; [reflexivity | apply of_Z_segment].
Qed.

(** ** Paths made of segments *)

Lemma segment_char_facts (c : ascii) :
  segment_char c = true ->
  Ascii.eqb c "/" = false /\ Ascii.eqb c "." = false
  /\ UrlLib.c0_control_or_space c = false.
Proof.
  destruct c as [[] [] [] [] [] [] [] []]; vm_compute; intro H;
    repeat split; congruence.
Qed.

Lemma path_char_facts (c : ascii) :
  path_char c = true ->
  UrlLib.unsafe_byte c = false /\ Ascii.eqb c ":" = false /\ Ascii.eqb c "#" = false
  /\ Ascii.eqb c "?" = false /\ Ascii.eqb c ";" = false.
Proof.
  destruct c as [[] [] [] [] [] [] [] []]; vm_compute; intro H;
    repeat split; congruence.
Qed.

Lemma segment_inv (x : string) :
  segment x = true ->
  (x =? "") = false /\ (x =? ".") = false /\ (x =? "..") = false
  /\ Str.contains "/" x = false /\ Str.forall_chars path_char x = true
  /\ Str.starts_with "/" x = false.
Proof.
  unfold segment. intro H. apply andb_true_iff in H as [N C].
  apply negb_true_iff in N.
  assert (Hs : Str.contains "/" x = false).
  { apply (StrFacts.contains_none segment_char); [| exact C].
    intros a Ha. apply segment_char_facts in Ha. tauto. }
  assert (Hp : Str.forall_chars path_char x = true).
  { apply (forall_chars_weaken segment_char); [| exact C].
    intros c Hc. unfold path_char. rewrite Hc. reflexivity. }
  destruct x as [| a x]; [discriminate N |].
  unfold Str.forall_chars in C. cbn [list_ascii_of_string forallb] in C.
  apply andb_true_iff in C as [Ca _].
  destruct (segment_char_facts a Ca) as (Hslash & Hdot & _).
  repeat split; try assumption; try reflexivity.
  - cbn [String.eqb]. rewrite Hdot. reflexivity.
  - cbn [String.eqb]. rewrite Hdot. reflexivity.
  - cbn [Str.starts_with]. rewrite (Ascii.eqb_sym "/" a), Hslash. reflexivity.
Qed.

Lemma split_no_slash (x : string) :
  Str.contains "/" x = false -> Str.split "/" x = [x].
Proof.
  induction x as [| a x IH]; cbn [Str.contains Str.split]; [reflexivity |].
  intro H. apply orb_false_iff in H as [Ha Hx].
  rewrite Ha, (IH Hx). reflexivity.
Qed.

Lemma split_segment (x t : string) :
  Str.contains "/" x = false ->
  Str.split "/" (x ++ String "/" t) = x :: Str.split "/" t.
Proof.
  induction x as [| a x IH]; cbn [Str.contains Str.split String.append].
  - intros _. reflexivity.
  - intro H. apply orb_false_iff in H as [Ha Hx].
    rewrite Ha, (IH Hx). reflexivity.
Qed.

(** Splitting a path at its slashes gives back the segments it was joined
    from. *)
Lemma split_join (l : list string) :
  l <> [] ->
  Forall (fun x => segment x = true) l ->
  Str.split "/" (Str.join "/" l) = l.
Proof.
  intros N H. induction H as [| x l Hx Hl IH]; [contradiction |].
  destruct (segment_inv x Hx) as (_ & _ & _ & Hs & _).
  destruct l as [| y l].
  - apply split_no_slash. exact Hs.
  - change (Str.join "/" (x :: y :: l)) with (x ++ String "/" (Str.join "/" (y :: l))).
    rewrite (split_segment _ _ Hs), IH by discriminate. reflexivity.
Qed.

Lemma forall_chars_path (l : list string) :
  Forall (fun x => segment x = true) l ->
  Str.forall_chars path_char (Str.join "/" l) = true.
Proof.
  intro H. apply StrFacts.forall_chars_join; [reflexivity |].
  eapply Forall_impl; [| exact H]. intros x Hx. apply segment_inv in Hx. tauto.
Qed.

Lemma filter_segments (l : list string) :
  Forall (fun x => segment x = true) l ->
  filter (fun s => negb (s =? "")) l = l.
Proof.
  induction 1 as [| x l Hx Hl IH]; [reflexivity |].
  cbn [filter]. destruct (segment_inv x Hx) as (E & _). rewrite E, IH. reflexivity.
Qed.

Lemma filter_middle_base (l : list string) :
  l <> [] ->
  Forall (fun x => segment x = true) l ->
  UrlLib.filter_middle (["" ; "v1"; ""] ++ l) = (["" ; "v1"] ++ l)%list.
Proof.
  intros N H. destruct (exists_last N) as (l' & w & ->).
  apply Forall_app in H as [Hl' _].
  unfold UrlLib.filter_middle. cbn [app].
  change ("v1" :: "" :: l' ++ [w])%list with (["v1"; ""] ++ l' ++ [w])%list.
  rewrite app_assoc, rev_app_distr. cbn [rev app].
  rewrite !rev_app_distr, rev_involutive. cbn [rev app filter].
  change (negb ("v1" =? "")) with true. change (negb ("" =? "")) with false.
  cbv iota. rewrite (filter_segments _ Hl'). reflexivity.
Qed.

Lemma resolve_steps (l acc : list string) :
  Forall (fun x => (x =? ".") = false /\ (x =? "..") = false) l ->
  fold_left UrlLib.resolve_step l acc = (acc ++ l)%list.
Proof.
  intro H. revert acc. induction H as [| x l [H1 H2] Hl IH]; intro acc; cbn [fold_left].
  - rewrite app_nil_r. reflexivity.
  - unfold UrlLib.resolve_step at 2. rewrite H1, H2, IH, <- app_assoc. reflexivity.
Qed.

Lemma join_cons (x : string) (l : list string) :
  l <> [] -> Str.join "/" (x :: l) = x ++ "/" ++ Str.join "/" l.
Proof. destruct l; [contradiction | reflexivity]. Qed.

Lemma resolve_path_segments (l : list string) :
  l <> [] ->
  Forall (fun x => segment x = true) l ->
  UrlLib.resolve_path "/v1/" (Str.join "/" l) = "/v1/" ++ Str.join "/" l.
Proof.
  intros N H. unfold UrlLib.resolve_path.
  change (Str.split "/" "/v1/") with ["" ; "v1"; ""].
  cbn [last String.eqb negb].
  assert (S0 : Str.starts_with "/" (Str.join "/" l) = false).
  { destruct l as [| x l]; [contradiction |].
    apply Forall_inv in H. destruct (segment_inv x H) as (E & _).
    destruct x as [| a x]; [discriminate E |].
    unfold segment, Str.forall_chars in H. cbn [list_ascii_of_string forallb] in H.
    apply andb_true_iff in H as [_ H]. apply andb_true_iff in H as [Ha _].
    destruct (segment_char_facts a Ha) as (Hs & _).
    destruct l; cbn [Str.join String.append Str.starts_with];
      rewrite (Ascii.eqb_sym "/" a), Hs; reflexivity. }
  rewrite S0, (split_join l N H), (filter_middle_base l N H).
  assert (D : Forall (fun x => (x =? ".") = false /\ (x =? "..") = false)
                     (["" ; "v1"] ++ l)).
  { repeat constructor. eapply Forall_impl; [| exact H].
    intros x Hx. apply segment_inv in Hx. tauto. }
  rewrite (resolve_steps _ [] D). cbn [app].
  assert (L : UrlLib.mem (last ("" :: "v1" :: l) "") ["."; ".."] = false).
  { destruct (exists_last N) as (l' & w & ->).
    change ("" :: "v1" :: l' ++ [w])%list with (["" ; "v1"] ++ l' ++ [w])%list.
    rewrite app_assoc, last_last.
    apply Forall_app in H as [_ Hw]. apply Forall_inv in Hw.
    destruct (segment_inv w Hw) as (_ & E1 & E2 & _).
    unfold UrlLib.mem. cbn [existsb]. rewrite E1, E2. reflexivity. }
  rewrite L.
  rewrite (join_cons "" ("v1" :: l)) by discriminate.
  rewrite (join_cons "v1" l N). reflexivity.
Qed.

Lemma plain_path_segments (l : list string) :
  l <> [] ->
  Forall (fun x => segment x = true) l ->
  plain_path (Str.join "/" l) = true.
Proof.
  intros N H.
  pose proof (forall_chars_path l H) as C.
  pose proof (resolve_path_segments l N H) as R.
  assert (F : forall c, Str.contains c (Str.join "/" l) = false
                        \/ path_char c = true).
  { intro c. destruct (path_char c) eqn:E; [right; reflexivity | left].
    apply (StrFacts.contains_none path_char); [| exact C].
    intros a Ha. destruct (Ascii.eqb_spec a c) as [-> |]; [congruence | reflexivity]. }
  assert (K : forall c, path_char c = false -> Str.contains c (Str.join "/" l) = false).
  { intros c Hc. destruct (F c) as [E | E]; [exact E | congruence]. }
  assert (U : Str.remove UrlLib.unsafe_byte (Str.join "/" l) = Str.join "/" l).
  { apply (StrFacts.remove_none path_char); [| exact C].
    intros a Ha. apply path_char_facts in Ha. tauto. }
  destruct l as [| x l]; [contradiction |].
  pose proof (Forall_inv H) as Hx.
  destruct x as [| a x]; [discriminate Hx |].
  assert (Ha : segment_char a = true).
  { unfold segment, Str.forall_chars in Hx. cbn [list_ascii_of_string forallb] in Hx.
    apply andb_true_iff in Hx as [_ Hx]. apply andb_true_iff in Hx as [Hx _]. exact Hx. }
  destruct (segment_char_facts a Ha) as (Hs & _ & Hc0).
  assert (E : exists t, Str.join "/" (String a x :: l) = String a t).
  { destruct l; cbn [Str.join String.append]; eexists; reflexivity. }
  destruct E as [t E]. rewrite E in *.
  unfold plain_path. rewrite Hc0, Hs, U, R.
  rewrite !K by reflexivity. rewrite !String.eqb_refl. reflexivity.
Qed.

Lemma join_not_root (a b : string) (l : list string) :
  ((Str.join "/" (a :: b :: l) =? "competitions")
   || (Str.join "/" (a :: b :: l) =? "fixtures")) = false.
Proof.
  assert (C : Str.contains "/" (Str.join "/" (a :: b :: l)) = true).
  { change (Str.join "/" (a :: b :: l)) with (a ++ String "/" (Str.join "/" (b :: l))).
    rewrite StrFacts.contains_app. cbn [Str.contains]. rewrite Ascii.eqb_refl.
    apply orb_true_r. }
  apply orb_false_iff. split; apply String.eqb_neq; intro E; rewrite E in C; discriminate C.
Qed.

(** The URL of a path of two or more segments: the base URL, the path as it
    is, and the query string. *)
Lemma generate_url_segments (self : Football) (a b : string) (l : list string)
    (d : dict string) :
  Forall (fun x => segment x = true) (a :: b :: l) ->
  _generate_url self (Str.join "/" (a :: b :: l)) (Dict d)
  = inr (API_URL ++ Str.join "/" (a :: b :: l) ++ query_string d).
Proof.
  intro H. rewrite generate_url_dict, join_not_root. f_equal.
  assert (P : plain_path (Str.join "/" (a :: b :: l)) = true)
    by (apply plain_path_segments; [discriminate | exact H]).
  destruct d as [| kv d]; cbn [query_string].
  - rewrite !StrFacts.append_nil_r. apply UrlFacts.urljoin_path. exact P.
  - rewrite (UrlFacts.urljoin_path_query _ _ P (UrlFacts.urlencode_encoded (kv :: d))).
    destruct (UrlLib.urlencode (kv :: d) =? "") eqn:E0; [| reflexivity].
    apply String.eqb_eq in E0. apply UrlFacts.urlencode_nonempty in E0. contradiction.
Qed.

(** ** The branches of each method *)

Lemma query_string_one (name : string) (v : PyValue) :
  truthy v = true ->
  query_string (param name v)
  = "?" ++ UrlLib.quote_plus name ++ "=" ++ UrlLib.quote_plus (py_str v).
Proof. intro T. unfold param. rewrite T. reflexivity. Qed.

Lemma passes_spec (pattern : Re.regex) (v : PyValue) :
  passes pattern v = if truthy v then Re.re_match pattern (py_str v) else true.
Proof. unfold passes. destruct (truthy v); reflexivity. Qed.

Lemma resolves_none (competition_id : PyValue) (st : State) :
  resolves competition_id st = None ->
  dict_get (py_str competition_id) (league_table st) = None
  /\ lookup_competition competition_id st
     = (Done (inl (KeyError (py_str competition_id))), st).
Proof.
  unfold resolves, lookup_competition.
  destruct competition_id as [| b | z | s]; try discriminate.
  cbn [py_str]. destruct (dict_get s (league_table st)); [discriminate |].
  intros _. split; reflexivity.
Qed.

Lemma competitions_rejects (self : Football) (season : PyValue) (st : State) :
  passes season_pattern season = false ->
  competitions self season st = (Raised (ValueError "season is invalid."), st).
Proof.
  intro P. unfold competitions. apply bind_raised.
  rewrite passes_spec in P. destruct (truthy season); [| discriminate].
  cbv zeta. rewrite P. reflexivity.
Qed.

Lemma teams_unknown (self : Football) (competition_id : PyValue) (st : State) :
  resolves competition_id st = None ->
  teams self competition_id st = (Done (RError (KeyError (py_str competition_id))), st).
Proof.
  intro R. unfold teams. destruct (resolves_none _ _ R) as [_ L].
  erewrite bind_done by exact L. reflexivity.
Qed.

Lemma teams_requests (self : Football) (competition_id id : PyValue) (st : State) :
  resolves competition_id st = Some id ->
  exists u, _generate_url self ("competitions/" ++ py_str id ++ "/teams") (Dict []) = inr u
            /\ teams self competition_id st = one_get self u st.
Proof.
  intro R. rewrite generate_url_dict. eexists. split; [reflexivity |].
  unfold teams. erewrite bind_done by (apply lookup_competition_resolves; exact R).
  cbv beta iota. apply send_one_get.
  exact (generate_url_dict self ("competitions/" ++ py_str id ++ "/teams") []).
Qed.

Lemma table_unknown (self : Football) (competition_id matchday : PyValue) (st : State) :
  resolves competition_id st = None ->
  table self competition_id matchday st
  = (Done (RError (KeyError (py_str competition_id))), st).
Proof.
  intro R. unfold table. destruct (resolves_none _ _ R) as [_ L].
  erewrite bind_done by exact L. reflexivity.
Qed.

Lemma table_rejects (self : Football) (competition_id matchday id : PyValue) (st : State) :
  resolves competition_id st = Some id ->
  passes matchday_pattern matchday = false ->
  table self competition_id matchday st = (Raised (ValueError "matchday is invalid."), st).
Proof.
  intros R P. unfold table.
  erewrite bind_done by (apply lookup_competition_resolves; exact R).
  cbv beta iota zeta. apply bind_raised.
  rewrite passes_spec in P. destruct (truthy matchday); [| discriminate].
  cbv zeta. rewrite P. reflexivity.
Qed.

Lemma competition_fixtures_unknown (self : Football)
    (competition_id matchday time_frame : PyValue) (st : State) :
  resolves competition_id st = None ->
  competition_fixtures self competition_id matchday time_frame st
  = (Done (RError (KeyError (py_str competition_id))), st).
Proof.
  intro R. unfold competition_fixtures. destruct (resolves_none _ _ R) as [_ L].
  erewrite bind_done by exact L. reflexivity.
Qed.

Lemma competition_fixtures_rejects_matchday (self : Football)
    (competition_id matchday time_frame id : PyValue) (st : State) :
  resolves competition_id st = Some id ->
  passes matchday_pattern matchday = false ->
  competition_fixtures self competition_id matchday time_frame st
  = (Raised (ValueError "matchday is invalid."), st).
Proof.
  intros R Pm. unfold competition_fixtures.
  erewrite bind_done by (apply lookup_competition_resolves; exact R).
  cbv beta iota zeta. apply bind_raised. rewrite check_block, Pm. reflexivity.
Qed.

Lemma competition_fixtures_rejects_time_frame (self : Football)
    (competition_id matchday time_frame id : PyValue) (st : State) :
  resolves competition_id st = Some id ->
  passes matchday_pattern matchday = true ->
  passes time_frame_pattern time_frame = false ->
  competition_fixtures self competition_id matchday time_frame st
  = (Raised (ValueError "time_frame is invalid."), st).
Proof.
  intros R Pm Pt. unfold competition_fixtures.
  erewrite bind_done by (apply lookup_competition_resolves; exact R).
  cbv beta iota zeta.
  erewrite bind_done by (rewrite check_block, Pm; reflexivity).
  cbv beta iota zeta. apply bind_raised. rewrite check_block, Pt. reflexivity.
Qed.

Lemma fixtures_rejects_time_frame (self : Football) (time_frame league_code : PyValue)
    (st : State) :
  passes time_frame_pattern time_frame = false ->
  fixtures self time_frame league_code st
  = (Raised (ValueError "time_frame is invalid."), st).
Proof.
  intro Pt. unfold fixtures. cbv zeta. apply bind_raised.
  rewrite check_block, Pt. reflexivity.
Qed.

Lemma fixtures_rejects_league (self : Football) (time_frame league_code : PyValue)
    (st : State) :
  passes time_frame_pattern time_frame = true ->
  league_passes league_code st = false ->
  fixtures self time_frame league_code st
  = (Raised (ValueError "league_code is invalid."), st).
Proof.
  intros Pt Pl. unfold fixtures. cbv zeta.
  erewrite bind_done by (rewrite check_block, Pt; reflexivity).
  cbv beta iota zeta. apply bind_raised. rewrite league_block, Pl. reflexivity.
Qed.

Lemma team_fixtures_rejects_season (self : Football)
    (team_id season time_frame venue : PyValue) (st : State) :
  passes season_pattern season = false ->
  team_fixtures self team_id season time_frame venue st
  = (Raised (ValueError "season is invalid."), st).
Proof.
  intro Ps. unfold team_fixtures. cbv zeta. apply bind_raised.
  rewrite check_block, Ps. reflexivity.
Qed.

Lemma team_fixtures_rejects_time_frame (self : Football)
    (team_id season time_frame venue : PyValue) (st : State) :
  passes season_pattern season = true ->
  passes time_frame_pattern time_frame = false ->
  team_fixtures self team_id season time_frame venue st
  = (Raised (ValueError "time_frame is invalid."), st).
Proof.
  intros Ps Pt. unfold team_fixtures. cbv zeta.
  erewrite bind_done by (rewrite check_block, Ps; reflexivity).
  cbv beta iota zeta. apply bind_raised. rewrite check_block, Pt. reflexivity.
Qed.

Lemma team_fixtures_rejects_venue (self : Football)
    (team_id season time_frame venue : PyValue) (st : State) :
  passes season_pattern season = true ->
  passes time_frame_pattern time_frame = true ->
  venue_passes venue = false ->
  team_fixtures self team_id season time_frame venue st
  = (Raised (ValueError "venue is invalid."), st).
Proof.
  intros Ps Pt Pv. unfold team_fixtures. cbv zeta.
  erewrite bind_done by (rewrite check_block, Ps; reflexivity).
  cbv beta iota zeta.
  erewrite bind_done by (rewrite check_block, Pt; reflexivity).
  cbv beta iota zeta. apply bind_raised. rewrite venue_block, Pv. reflexivity.
Qed.

Lemma getter_requests (self : Football) (action : string) (st : State) :
  exists u, _generate_url self action (Dict []) = inr u
            /\ (url <- lift (_generate_url self action (Scalar PyNone)) ;;
                body <- requests_get_json url (self_headers self) ;; ret (RJson body)) st
               = one_get self u st.
Proof.
  rewrite generate_url_dict. eexists. split; [reflexivity |].
  apply send_one_get. exact (generate_url_dict self action []).
Qed.

Lemma segments3 (a x b : string) :
  segment a = true -> segment x = true -> segment b = true ->
  Forall (fun s => segment s = true) [a; x; b].
Proof. intros; repeat constructor; assumption. Qed.

Lemma segments2 (a x : string) :
  segment a = true -> segment x = true ->
  Forall (fun s => segment s = true) [a; x].
Proof. intros; repeat constructor; assumption. Qed.

Lemma action3_url (self : Football) (a x b : string) (d : dict string) :
  segment a = true -> segment x = true -> segment b = true ->
  _generate_url self (a ++ "/" ++ x ++ "/" ++ b) (Dict d)
  = inr (API_URL ++ a ++ "/" ++ x ++ "/" ++ b ++ query_string d).
Proof.
  intros Ha Hx Hb.
  pose proof (generate_url_segments self a x [b] d (segments3 a x b Ha Hx Hb)) as G.
  cbn [Str.join] in G. rewrite G. rewrite !StrFacts.append_assoc. reflexivity.
Qed.

Lemma action2_url (self : Football) (a x : string) (d : dict string) :
  segment a = true -> segment x = true ->
  _generate_url self (a ++ "/" ++ x) (Dict d)
  = inr (API_URL ++ a ++ "/" ++ x ++ query_string d).
Proof.
  intros Ha Hx.
  pose proof (generate_url_segments self a x [] d (segments2 a x Ha Hx)) as G.
  cbn [Str.join] in G. rewrite G. rewrite !StrFacts.append_assoc. reflexivity.
Qed.

Lemma inr_eq {A B : Type} (x y : B) : @inr A B x = inr y -> x = y.
Proof. intro H. injection H as H. exact H. Qed.

(** Two descriptions of the URL of one action agree. *)
Ltac same_url Hu G :=
  let E := fresh "E" in
  pose proof (inr_eq _ _ (eq_trans (eq_sym Hu) G)) as E; subst; clear Hu.

(** ** Texts that [quote_plus] leaves as they are *)

Lemma quote_plus_safe (s : string) :
  Str.forall_chars UrlLib.always_safe s = true -> UrlLib.quote_plus s = s.
Proof.
  unfold Str.forall_chars. induction s as [| c s IH];
    cbn [list_ascii_of_string forallb UrlLib.quote_plus]; [reflexivity |].
  intro H. apply andb_true_iff in H as [Hc Hs].
  unfold UrlLib.quote_char. rewrite Hc, (IH Hs). reflexivity.
Qed.

Lemma digit_always_safe (c : ascii) : Str.is_digit c = true -> UrlLib.always_safe c = true.
Proof.
  intro H. unfold UrlLib.always_safe, Str.is_alnum. rewrite H.
  rewrite orb_true_r. reflexivity.
Qed.

Lemma digits_safe (s : string) :
  Str.forall_chars Str.is_digit s = true -> UrlLib.quote_plus s = s.
Proof.
  intro H. apply quote_plus_safe.
  exact (forall_chars_weaken _ _ _ digit_always_safe H).
Qed.

Lemma digits_begin (s : string) :
  Str.forall_chars Str.is_digit s = true -> s <> "" -> begins_with_digits 1 s = true.
Proof.
  destruct s as [| c s]; [contradiction |].
  unfold Str.forall_chars. cbn [list_ascii_of_string forallb begins_with_digits].
  intros H _. apply andb_true_iff in H as [Hc _]. rewrite Hc. reflexivity.
Qed.

(** ** How a call can end *)

Lemma invoke_call_result (self : Football) (c : Call) (st : State) :
  call_result self st (invoke self c st).
Proof.
  assert (V : forall msg, In msg validation_messages ->
                          call_result self st (Raised (ValueError msg), st))
    by (intros; apply Rejected; assumption).
  assert (K : forall v, resolves v st = None ->
                        call_result self st (Done (RError (KeyError (py_str v))), st)).
  { intros v R. apply UnknownCode. apply (resolves_none v st R). }
  destruct c as [season | cid | cid md | cid md tf | tf lc | fid
                 | tid season tf venue | tid | tid]; cbn [invoke].
  - destruct (passes season_pattern season) eqn:P.
    + destruct (competitions_passes self season st P) as (u & _ & ->). apply Requested.
    + rewrite (competitions_rejects self season st P). apply V. cbn. tauto.
  - destruct (resolves cid st) as [id |] eqn:R.
    + destruct (teams_requests self cid id st R) as (u & _ & ->). apply Requested.
    + rewrite (teams_unknown self cid st R). apply K. exact R.
  - destruct (resolves cid st) as [id |] eqn:R.
    + destruct (passes matchday_pattern md) eqn:P.
      * destruct (table_passes self cid md id st R P) as (u & _ & ->). apply Requested.
      * rewrite (table_rejects self cid md id st R P). apply V. cbn. tauto.
    + rewrite (table_unknown self cid md st R). apply K. exact R.
  - destruct (resolves cid st) as [id |] eqn:R.
    + destruct (passes matchday_pattern md) eqn:Pm.
      * destruct (passes time_frame_pattern tf) eqn:Pt.
        -- destruct (competition_fixtures_passes self cid md tf id st R Pm Pt)
             as (u & _ & ->). apply Requested.
        -- rewrite (competition_fixtures_rejects_time_frame self cid md tf id st R Pm Pt).
           apply V. cbn. tauto.
      * rewrite (competition_fixtures_rejects_matchday self cid md tf id st R Pm).
        apply V. cbn. tauto.
    + rewrite (competition_fixtures_unknown self cid md tf st R). apply K. exact R.
  - destruct (passes time_frame_pattern tf) eqn:Pt.
    + destruct (league_passes lc st) eqn:Pl.
      * destruct (fixtures_passes self tf lc st Pt Pl) as (u & _ & ->). apply Requested.
      * rewrite (fixtures_rejects_league self tf lc st Pt Pl). apply V. cbn. tauto.
    + rewrite (fixtures_rejects_time_frame self tf lc st Pt). apply V. cbn. tauto.
  - destruct (getter_requests self ("fixtures/" ++ py_str fid) st) as (u & _ & H).
    unfold fixture. rewrite H. apply Requested.
  - destruct (passes season_pattern season) eqn:Ps.
    + destruct (passes time_frame_pattern tf) eqn:Pt.
      * destruct (venue_passes venue) eqn:Pv.
        -- destruct (team_fixtures_passes self tid season tf venue st Ps Pt Pv)
             as (u & _ & ->). apply Requested.
        -- rewrite (team_fixtures_rejects_venue self tid season tf venue st Ps Pt Pv).
           apply V. cbn. tauto.
      * rewrite (team_fixtures_rejects_time_frame self tid season tf venue st Ps Pt).
        apply V. cbn. tauto.
    + rewrite (team_fixtures_rejects_season self tid season tf venue st Ps).
      apply V. cbn. tauto.
  - destruct (getter_requests self ("teams/" ++ py_str tid) st) as (u & _ & H).
    unfold team. rewrite H. apply Requested.
  - destruct (getter_requests self ("teams/" ++ py_str tid ++ "/players") st)
      as (u & _ & H).
    unfold players. rewrite H. apply Requested.
Qed.

Lemma call_result_state (self : Football) (st : State) (r : Outcome Returned * State) :
  call_result self st r ->
  snd r = st
  \/ exists u, snd r = mkState (league_table st) (service st)
                         (sent st ++ [mkRequest u (self_headers self)]).
Proof.
  intro H. destruct H as [msg _ | code _ | u]; [left | left | right]; try reflexivity.
  exists u. reflexivity.
Qed.

(** ** The texts the three checks accept *)

Lemma begins_with_digits_prefix (n : nat) (s : string) :
  begins_with_digits n s = true
  <-> exists p q, s = p ++ q /\ String.length p = n
                  /\ Str.forall_chars Str.is_digit p = true.
Proof.
  revert s. induction n as [| n IH]; intro s; cbn [begins_with_digits].
  - split; [intros _ | reflexivity].
    exists "", s. repeat split.
  - destruct s as [| c s].
    + split; [discriminate |]. intros (p & q & E & L & _).
      destruct p; [discriminate L | discriminate E].
    + split.
      * intro H. apply andb_true_iff in H as [Hc Hs].
        apply IH in Hs as (p & q & -> & L & D).
        exists (String c p), q. cbn [String.append String.length]. repeat split.
        -- rewrite L. reflexivity.
        -- unfold Str.forall_chars in *. cbn [list_ascii_of_string forallb].
           rewrite Hc, D. reflexivity.
      * intros (p & q & E & L & D). destruct p as [| a p]; [discriminate L |].
        cbn [String.append String.length] in E, L. injection E as -> ->.
        injection L as L.
        unfold Str.forall_chars in D. cbn [list_ascii_of_string forallb] in D.
        apply andb_true_iff in D as [Da Dp]. rewrite Da. cbn [andb].
        apply IH. exists p, q. repeat split; assumption.
Qed.

Lemma begins_with_time_frame_app (p q : string) :
  begins_with_time_frame p = true -> begins_with_time_frame (p ++ q) = true.
Proof.
  destruct p as [| c [| d r]]; cbn [begins_with_time_frame String.append]; intro H.
  - discriminate.
  - apply orb_true_iff in H as [H | H]; [rewrite H; reflexivity |].
    rewrite andb_false_r in H. discriminate.
  - exact H.
Qed.

(** ** Counting the delimiters of a query string *)

Lemma count_char_app (c : ascii) (s t : string) :
  count_char c (s ++ t) = count_char c s + count_char c t.
Proof.
  induction s as [| a s IH]; cbn [String.append count_char]; [reflexivity |].
  rewrite IH. apply Nat.add_assoc.
Qed.

Lemma delimiter_cases (c : ascii) :
  Str.contains c "=&#?" = true ->
  c = "="%char \/ c = "&"%char \/ c = "#"%char \/ c = "?"%char.
Proof.
  cbn [Str.contains]. intro H.
  repeat (apply orb_true_iff in H as [H | H];
          [apply Ascii.eqb_eq in H; symmetry in H; tauto |]).
  discriminate.
Qed.

Lemma count_quote_char (c a : ascii) :
  Str.contains c "=&#?" = true -> count_char c (UrlLib.quote_char a) = 0.
Proof.
  intro H. apply delimiter_cases in H as [-> | [-> | [-> | ->]]];
    destruct a as [[] [] [] [] [] [] [] []]; vm_compute; reflexivity.
Qed.

Lemma count_quote_plus (c : ascii) (s : string) :
  Str.contains c "=&#?" = true -> count_char c (UrlLib.quote_plus s) = 0.
Proof.
  intro H. induction s as [| a s IH]; cbn [UrlLib.quote_plus]; [reflexivity |].
  rewrite count_char_app, (count_quote_char c a H), IH. reflexivity.
Qed.

Lemma urlencode_cons (kv : string * string) (d : dict string) :
  UrlLib.urlencode (kv :: d)
  = UrlLib.quote_plus (fst kv) ++ "=" ++ UrlLib.quote_plus (snd kv)
    ++ match d with [] => "" | _ :: _ => "&" ++ UrlLib.urlencode d end.
Proof.
  unfold UrlLib.urlencode. destruct d as [| kv' d]; cbn [map Str.join].
  - rewrite StrFacts.append_nil_r. reflexivity.
  - rewrite !StrFacts.append_assoc. reflexivity.
Qed.

Lemma count_urlencode (d : dict string) :
  count_char "=" (UrlLib.urlencode d) = List.length d
  /\ count_char "&" (UrlLib.urlencode d) = pred (List.length d)
  /\ count_char "#" (UrlLib.urlencode d) = 0
  /\ count_char "?" (UrlLib.urlencode d) = 0.
Proof.
  induction d as [| kv d (IE & IA & IH & IQ)]; [repeat split |].
  rewrite urlencode_cons, !count_char_app.
  rewrite !(count_quote_plus "=") by reflexivity.
  rewrite !(count_quote_plus "&") by reflexivity.
  rewrite !(count_quote_plus "#") by reflexivity.
  rewrite !(count_quote_plus "?") by reflexivity.
  destruct d as [| kv' d]; [repeat split |].
  change (count_char "=" ("&" ++ UrlLib.urlencode (kv' :: d)))
    with (count_char "=" (UrlLib.urlencode (kv' :: d))).
  change (count_char "&" ("&" ++ UrlLib.urlencode (kv' :: d)))
    with (S (count_char "&" (UrlLib.urlencode (kv' :: d)))).
  change (count_char "#" ("&" ++ UrlLib.urlencode (kv' :: d)))
    with (count_char "#" (UrlLib.urlencode (kv' :: d))).
  change (count_char "?" ("&" ++ UrlLib.urlencode (kv' :: d)))
    with (count_char "?" (UrlLib.urlencode (kv' :: d))).
  rewrite IE, IA, IH, IQ. cbn [List.length pred count_char Ascii.eqb]. repeat split.
Qed.

(** ** Well-formed values are sent as they are *)

Lemma range_always_safe (c : ascii) :
  Str.between "1" "9" c = true -> UrlLib.always_safe c = true.
Proof. destruct c as [[] [] [] [] [] [] [] []]; vm_compute; intro H; congruence. Qed.

Lemma time_frame_exact_safe (t : string) :
  time_frame_exact t = true -> UrlLib.quote_plus t = t.
Proof.
  unfold time_frame_exact. intro H. apply orb_true_iff in H as [H | H].
  - apply String.eqb_eq in H. subst t. reflexivity.
  - destruct t as [| c d]; [discriminate |].
    repeat (let H' := fresh "H" in apply andb_true_iff in H as [H H']).
    apply Ascii.eqb_eq in H. subst c. apply quote_plus_safe.
    match goal with
    | X : Str.forall_chars _ d = true |- _ =>
        pose proof (forall_chars_weaken _ _ _ range_always_safe X) as Y
    end.
    unfold Str.forall_chars in Y |- *. cbn [list_ascii_of_string forallb].
    rewrite Y. reflexivity.
Qed.

Lemma four_digits_passes (v : PyValue) :
  four_digits (py_str v) = true ->
  truthy v = true /\ passes season_pattern v = true
  /\ UrlLib.quote_plus (py_str v) = py_str v.
Proof.
  unfold four_digits. intro H. apply andb_true_iff in H as [L D].
  apply Nat.eqb_eq in L.
  assert (T : truthy v = true).
  { destruct v as [| [|] | z | s]; cbn [py_str truthy] in *; try discriminate D.
    - destruct z; [discriminate L | reflexivity | reflexivity].
    - destruct s; [discriminate L | reflexivity]. }
  split; [exact T |]. split.
  - rewrite passes_spec, T, season_pattern_match.
    apply begins_with_digits_prefix. exists (py_str v), "".
    rewrite StrFacts.append_nil_r. repeat split; assumption.
  - apply digits_safe. exact D.
Qed.

(* ===================================================================== *)
(** * Further properties of the methods *)
(* ===================================================================== *)

(** X1: [competitions] with a falsy season requests the collection URL; with
    a season whose text begins with four digits it requests that URL with the
    encoded text as [season]; with any other season it raises
    [ValueError("season is invalid.")] and requests nothing. *)
Theorem X1_competitions_cases (self : Football) (season : PyValue) (st : State) :
  competitions self season st
  = if truthy season then
      if begins_with_digits 4 (py_str season)
      then one_get self
             ("http://api.football-data.org/v1/competitions/?season="
              ++ UrlLib.quote_plus (py_str season)) st
      else (Raised (ValueError "season is invalid."), st)
    else one_get self "http://api.football-data.org/v1/competitions/" st.
Proof.
  destruct (passes season_pattern season) eqn:P.
  - destruct (competitions_passes self season st P) as (u & Hu & ->).
    rewrite generate_url_root in Hu by auto. injection Hu as <-.
    rewrite passes_spec, season_pattern_match in P.
    destruct (truthy season) eqn:T.
    + rewrite P, (query_string_one _ _ T). reflexivity.
    + unfold param. rewrite T. reflexivity.
  - rewrite (competitions_rejects self season st P).
    rewrite passes_spec, season_pattern_match in P.
    destruct (truthy season); [rewrite P; reflexivity | discriminate].
Qed.

(** X2: [teams] hands back the [KeyError] of an unknown mnemonic and requests
    nothing; for any other competition (a known mnemonic, or a value that is
    no [str], which is never looked up) it issues one GET to
    [competitions/<id>/teams] under the base URL. *)
Theorem X2_teams_cases (self : Football) (competition_id : PyValue) (st : State) :
  teams self competition_id st
  = match resolves competition_id st with
    | Some id =>
        one_get self
          ("http://api.football-data.org/v1/competitions/" ++ py_str id ++ "/teams") st
    | None => (Done (RError (KeyError (py_str competition_id))), st)
    end.
Proof.
  destruct (resolves competition_id st) as [id |] eqn:R.
  - destruct (teams_requests self competition_id id st R) as (u & Hu & ->).
    destruct (resolves_segment _ _ _ R) as [_ S].
    same_url Hu (action3_url self "competitions" (py_str id) "teams" [] eq_refl S eq_refl).
    reflexivity.
  - apply teams_unknown. exact R.
Qed.

(** X3: [table] first resolves the competition (an unknown mnemonic ends the
    call with its [KeyError]), then checks the matchday, and only then issues
    its one GET, to [competitions/<id>/leagueTable] with the matchday, if
    any, as query string. *)
Theorem X3_table_cases (self : Football) (competition_id matchday : PyValue) (st : State) :
  table self competition_id matchday st
  = match resolves competition_id st with
    | Some id =>
        if passes matchday_pattern matchday
        then one_get self
               ("http://api.football-data.org/v1/competitions/" ++ py_str id
                ++ "/leagueTable" ++ query_string (param "matchday" matchday)) st
        else (Raised (ValueError "matchday is invalid."), st)
    | None => (Done (RError (KeyError (py_str competition_id))), st)
    end.
Proof.
  destruct (resolves competition_id st) as [id |] eqn:R.
  - destruct (passes matchday_pattern matchday) eqn:P.
    + destruct (table_passes self competition_id matchday id st R P) as (u & Hu & ->).
      destruct (resolves_segment _ _ _ R) as [_ S].
      same_url Hu (action3_url self "competitions" (py_str id) "leagueTable"
                     (param "matchday" matchday) eq_refl S eq_refl).
      reflexivity.
    + apply (table_rejects self competition_id matchday id); assumption.
  - apply table_unknown. exact R.
Qed.

(** X4: [competition_fixtures] resolves the competition, then checks the
    matchday, then the time frame; the first check that fails decides the
    error. When all pass, its one GET goes to [competitions/<id>/fixtures]
    with [matchday] before [timeFrame] in the query string. *)
Theorem X4_competition_fixtures_cases (self : Football)
    (competition_id matchday time_frame : PyValue) (st : State) :
  competition_fixtures self competition_id matchday time_frame st
  = match resolves competition_id st with
    | Some id =>
        if negb (passes matchday_pattern matchday)
        then (Raised (ValueError "matchday is invalid."), st)
        else if negb (passes time_frame_pattern time_frame)
        then (Raised (ValueError "time_frame is invalid."), st)
        else one_get self
               ("http://api.football-data.org/v1/competitions/" ++ py_str id
                ++ "/fixtures"
                ++ query_string (param "matchday" matchday ++ param "timeFrame" time_frame))
               st
    | None => (Done (RError (KeyError (py_str competition_id))), st)
    end.
Proof.
  destruct (resolves competition_id st) as [id |] eqn:R.
  - destruct (passes matchday_pattern matchday) eqn:Pm; cbn [negb].
    + destruct (passes time_frame_pattern time_frame) eqn:Pt; cbn [negb].
      * destruct (competition_fixtures_passes self competition_id matchday time_frame id st
                    R Pm Pt) as (u & Hu & ->).
        destruct (resolves_segment _ _ _ R) as [_ S].
        same_url Hu (action3_url self "competitions" (py_str id) "fixtures"
                       (param "matchday" matchday ++ param "timeFrame" time_frame)
                       eq_refl S eq_refl).
        reflexivity.
      * apply (competition_fixtures_rejects_time_frame self competition_id matchday
                 time_frame id); assumption.
    + apply (competition_fixtures_rejects_matchday self competition_id matchday
               time_frame id); assumption.
  - apply competition_fixtures_unknown. exact R.
Qed.

(** X5: [fixtures] checks the time frame before the league code; the first
    check that fails decides the error. When both pass, its one GET goes to
    the collection URL with [timeFrame] before [league] in the query
    string. *)
Theorem X5_fixtures_cases (self : Football) (time_frame league_code : PyValue) (st : State) :
  fixtures self time_frame league_code st
  = if negb (passes time_frame_pattern time_frame)
    then (Raised (ValueError "time_frame is invalid."), st)
    else if negb (league_passes league_code st)
    then (Raised (ValueError "league_code is invalid."), st)
    else one_get self
           ("http://api.football-data.org/v1/fixtures/"
            ++ query_string (param "timeFrame" time_frame ++ param "league" league_code))
           st.
Proof.
  destruct (passes time_frame_pattern time_frame) eqn:Pt; cbn [negb].
  - destruct (league_passes league_code st) eqn:Pl; cbn [negb].
    + destruct (fixtures_passes self time_frame league_code st Pt Pl) as (u & Hu & ->).
      rewrite generate_url_root in Hu by auto. injection Hu as <-. reflexivity.
    + apply fixtures_rejects_league; assumption.
  - apply fixtures_rejects_time_frame; assumption.
Qed.

(** X6: [team_fixtures] checks the season, then the time frame, then the
    venue; the first check that fails decides the error. When all pass and
    the text of the team identifier is a plain segment (as for every [int]),
    its one GET goes to [teams/<id>/fixtures] with [season], [timeFrame] and
    [venue], in that order, in the query string. *)
Theorem X6_team_fixtures_cases (self : Football)
    (team_id season time_frame venue : PyValue) (st : State) :
  segment (py_str team_id) = true ->
  team_fixtures self team_id season time_frame venue st
  = if negb (passes season_pattern season)
    then (Raised (ValueError "season is invalid."), st)
    else if negb (passes time_frame_pattern time_frame)
    then (Raised (ValueError "time_frame is invalid."), st)
    else if negb (venue_passes venue)
    then (Raised (ValueError "venue is invalid."), st)
    else one_get self
           ("http://api.football-data.org/v1/teams/" ++ py_str team_id ++ "/fixtures"
            ++ query_string (param "season" season ++ param "timeFrame" time_frame
                             ++ param "venue" venue))
           st.
Proof.
  intro S.
  destruct (passes season_pattern season) eqn:Ps; cbn [negb].
  - destruct (passes time_frame_pattern time_frame) eqn:Pt; cbn [negb].
    + destruct (venue_passes venue) eqn:Pv; cbn [negb].
      * destruct (team_fixtures_passes self team_id season time_frame venue st Ps Pt Pv)
          as (u & Hu & ->).
        same_url Hu (action3_url self "teams" (py_str team_id) "fixtures"
                       (param "season" season ++ param "timeFrame" time_frame
                        ++ param "venue" venue) eq_refl S eq_refl).
        reflexivity.
      * apply team_fixtures_rejects_venue; assumption.
    + apply team_fixtures_rejects_time_frame; assumption.
  - apply team_fixtures_rejects_season; assumption.
Qed.

Lemma X6_team_fixtures_cases_witness :
  let self := init (PyStr "key") in
  let st := imported null_service [] in
  segment (py_str (PyInt 66)) = true
  /\ team_fixtures self (PyInt 66) (PyInt 2017) (PyStr "n7") (PyStr "home") st
     = one_get self
         "http://api.football-data.org/v1/teams/66/fixtures?season=2017&timeFrame=n7&venue=home"
         st
  /\ team_fixtures self (PyInt 66) (PyInt 2017) (PyStr "soon") (PyStr "nowhere") st
     = (Raised (ValueError "time_frame is invalid."), st).
Proof.
  cbv zeta. split; [reflexivity |]. split.
  - exact (X6_team_fixtures_cases (init (PyStr "key")) (PyInt 66) (PyInt 2017) (PyStr "n7")
             (PyStr "home") (imported null_service []) eq_refl).
  - exact (X6_team_fixtures_cases (init (PyStr "key")) (PyInt 66) (PyInt 2017) (PyStr "soon")
             (PyStr "nowhere") (imported null_service []) eq_refl).
Defined.

(** X7: [fixture], [team] and [players] check nothing: for every identifier
    whose text is a plain segment (every [int], and [None] or a [bool] as
    well) each issues one GET, to [fixtures/<id>], [teams/<id>] and
    [teams/<id>/players] under the base URL. *)
Theorem X7_unchecked_getters (self : Football) (v : PyValue) (st : State) :
  segment (py_str v) = true ->
  fixture self v st
  = one_get self ("http://api.football-data.org/v1/fixtures/" ++ py_str v) st
  /\ team self v st
     = one_get self ("http://api.football-data.org/v1/teams/" ++ py_str v) st
  /\ players self v st
     = one_get self ("http://api.football-data.org/v1/teams/" ++ py_str v ++ "/players") st.
Proof.
  intro S. split; [| split].
  - destruct (getter_requests self ("fixtures/" ++ py_str v) st) as (u & Hu & H).
    unfold fixture. rewrite H.
    same_url Hu (action2_url self "fixtures" (py_str v) [] eq_refl S).
    cbn [query_string]. rewrite StrFacts.append_nil_r. reflexivity.
  - destruct (getter_requests self ("teams/" ++ py_str v) st) as (u & Hu & H).
    unfold team. rewrite H.
    same_url Hu (action2_url self "teams" (py_str v) [] eq_refl S).
    cbn [query_string]. rewrite StrFacts.append_nil_r. reflexivity.
  - destruct (getter_requests self ("teams/" ++ py_str v ++ "/players") st) as (u & Hu & H).
    unfold players. rewrite H.
    same_url Hu (action3_url self "teams" (py_str v) "players" [] eq_refl S eq_refl).
    reflexivity.
Qed.

Lemma X7_unchecked_getters_witness :
  let self := init (PyStr "key") in
  let st := imported null_service [] in
  segment (py_str (PyInt (-3))) = true
  /\ fixture self (PyInt (-3)) st
     = one_get self "http://api.football-data.org/v1/fixtures/-3" st
  /\ team self (PyInt (-3)) st
     = one_get self "http://api.football-data.org/v1/teams/-3" st
  /\ players self (PyInt (-3)) st
     = one_get self "http://api.football-data.org/v1/teams/-3/players" st.
Proof.
  cbv zeta. split; [reflexivity |].
  exact (X7_unchecked_getters (init (PyStr "key")) (PyInt (-3)) (imported null_service [])
           eq_refl).
Defined.

(** X8: a mnemonic of the table and the identifier it stands for are
    interchangeable: [teams], [table] and [competition_fixtures] behave the
    same on either, whatever the other arguments are. *)
Theorem X8_mnemonic_is_its_id (self : Football) (code : string) (id : Z)
    (matchday time_frame : PyValue) (st : State) :
  dict_get code (league_table st) = Some id ->
  teams self (PyStr code) st = teams self (PyInt id) st
  /\ table self (PyStr code) matchday st = table self (PyInt id) matchday st
  /\ competition_fixtures self (PyStr code) matchday time_frame st
     = competition_fixtures self (PyInt id) matchday time_frame st.
Proof.
  intro H.
  assert (L : lookup_competition (PyStr code) st = lookup_competition (PyInt id) st).
  { unfold lookup_competition. rewrite H. reflexivity. }
  repeat split; unfold teams, table, competition_fixtures, bind; rewrite L; reflexivity.
Qed.

Lemma X8_mnemonic_is_its_id_witness :
  let self := init (PyStr "key") in
  let st := imported null_service [] in
  dict_get "BL1" (league_table st) = Some 452%Z
  /\ teams self (PyStr "BL1") st = teams self (PyInt 452) st
  /\ table self (PyStr "BL1") (PyInt 7) st = table self (PyInt 452) (PyInt 7) st
  /\ competition_fixtures self (PyStr "BL1") (PyInt 7) (PyStr "p") st
     = competition_fixtures self (PyInt 452) (PyInt 7) (PyStr "p") st.
Proof.
  cbv zeta. split; [reflexivity |].
  exact (X8_mnemonic_is_its_id (init (PyStr "key")) "BL1" 452 (PyInt 7) (PyStr "p")
           (imported null_service []) eq_refl).
Defined.

(** X9: an [int] matchday in [table]. A positive one is sent as it is, as
    [?matchday=<n>]; zero is skipped and the table is requested without a
    matchday; a negative one raises [ValueError("matchday is invalid.")] and
    nothing is requested. *)
Theorem X9_table_int_matchday (self : Football) (competition_id id : PyValue) (n : Z)
    (st : State) :
  resolves competition_id st = Some id ->
  table self competition_id (PyInt n) st
  = if (0 <? n)%Z then
      one_get self
        ("http://api.football-data.org/v1/competitions/" ++ py_str id
         ++ "/leagueTable?matchday=" ++ Str.of_Z n) st
    else if (n =? 0)%Z then
      one_get self
        ("http://api.football-data.org/v1/competitions/" ++ py_str id ++ "/leagueTable") st
    else (Raised (ValueError "matchday is invalid."), st).
Proof.
  intro R.
  destruct (resolves_segment _ _ _ R) as [_ S].
  destruct (Z.ltb_spec 0 n) as [Hpos | Hle].
  - destruct (of_Z_nonneg n ltac:(lia)) as [D N].
    assert (T : truthy (PyInt n) = true).
    { cbn [truthy]. destruct (Z.eqb_spec n 0); [lia | reflexivity]. }
    assert (P : passes matchday_pattern (PyInt n) = true).
    { rewrite passes_spec, T, matchday_pattern_match. apply digits_begin; assumption. }
    destruct (table_passes self competition_id (PyInt n) id st R P) as (u & Hu & ->).
    same_url Hu (action3_url self "competitions" (py_str id) "leagueTable"
                   (param "matchday" (PyInt n)) eq_refl S eq_refl).
    rewrite (query_string_one _ _ T). cbn [py_str]. rewrite (digits_safe _ D).
    reflexivity.
  - destruct (Z.eqb_spec n 0) as [-> | Hne].
    + destruct (table_passes self competition_id (PyInt 0) id st R eq_refl) as (u & Hu & ->).
      same_url Hu (action3_url self "competitions" (py_str id) "leagueTable"
                     (param "matchday" (PyInt 0)) eq_refl S eq_refl).
      reflexivity.
    + apply (table_rejects self competition_id (PyInt n) id); [exact R |].
      destruct (of_Z_neg n ltac:(lia)) as [d E].
      rewrite passes_spec, matchday_pattern_match. cbn [truthy py_str].
      destruct (Z.eqb_spec n 0); [lia |]. cbn [negb]. rewrite E. reflexivity.
Qed.

Lemma X9_table_int_matchday_witness :
  let self := init (PyStr "key") in
  let st := imported null_service [] in
  resolves (PyStr "SA") st = Some (PyInt 456)
  /\ table self (PyStr "SA") (PyInt 12) st
     = one_get self
         "http://api.football-data.org/v1/competitions/456/leagueTable?matchday=12" st
  /\ table self (PyStr "SA") (PyInt (-12)) st
     = (Raised (ValueError "matchday is invalid."), st).
Proof.
  cbv zeta. split; [reflexivity |]. split.
  - exact (X9_table_int_matchday (init (PyStr "key")) (PyStr "SA") (PyInt 456) 12
             (imported null_service []) eq_refl).
  - exact (X9_table_int_matchday (init (PyStr "key")) (PyStr "SA") (PyInt 456) (-12)
             (imported null_service []) eq_refl).
Defined.


(** X11: over any sequence of calls the log of requests only grows at its
    end, by at most one request per call, every request added carries the
    headers of the client, and the service is left as it is. *)
Theorem X11_session_log (self : Football) (calls : list Call) (st : State) :
  exists added,
    sent (session self calls st) = (sent st ++ added)%list
    /\ List.length added <= List.length calls
    /\ Forall (fun r => headers r = self_headers self) added
    /\ service (session self calls st) = service st.
Proof.
  revert st. induction calls as [| c calls IH]; intro st; cbn [session].
  - exists []. rewrite app_nil_r. repeat split; [apply Nat.le_refl | constructor].
  - destruct (IH (snd (invoke self c st))) as (added & Hs & Hl & Hh & Hv).
    destruct (call_result_state self st _ (invoke_call_result self c st)) as [E | [u E]];
      rewrite E in *.
    + exists added. repeat split; try assumption. cbn [List.length]. lia.
    + exists (mkRequest u (self_headers self) :: added). cbn [sent service] in *.
      rewrite Hs, <- app_assoc. repeat split; try assumption.
      * cbn [List.length]. lia.
      * constructor; [reflexivity | exact Hh].
Qed.

(** X12: a check made with [match] accepts a text exactly when some prefix
    of it has the intended form: four digits for a season, one or more
    digits for a matchday, and [p] or [n] with one or two digits from 1 to 9
    for a time frame. What follows the prefix is not looked at. *)
Theorem X12_checks_accept_prefixes (s : string) :
  (Re.re_match season_pattern s = true
   <-> exists p q, s = p ++ q /\ four_digits p = true)
  /\ (Re.re_match matchday_pattern s = true
      <-> exists p q, s = p ++ q /\ decimal_digits p = true)
  /\ (Re.re_match time_frame_pattern s = true
      <-> exists p q, s = p ++ q /\ time_frame_exact p = true).
Proof.
  split; [| split].
  - rewrite season_pattern_match, begins_with_digits_prefix. unfold four_digits.
    split; intros (p & q & E & H).
    + destruct H as [L D]. exists p, q. split; [exact E |].
      rewrite L, D. reflexivity.
    + apply andb_true_iff in H as [L D]. apply Nat.eqb_eq in L.
      exists p, q. repeat split; assumption.
  - rewrite matchday_pattern_match, begins_with_digits_prefix. unfold decimal_digits.
    split; intros (p & q & E & H).
    + destruct H as [L D]. exists p, q. split; [exact E |].
      rewrite D. destruct p; [discriminate L | reflexivity].
    + apply andb_true_iff in H as [N D].
      destruct p as [| c p]; [discriminate N |].
      unfold Str.forall_chars in D. cbn [list_ascii_of_string forallb] in D.
      apply andb_true_iff in D as [Dc _].
      exists (String c ""), (p ++ q). repeat split.
      * rewrite E. reflexivity.
      * unfold Str.forall_chars. cbn [list_ascii_of_string forallb].
        rewrite Dc. reflexivity.
  - rewrite time_frame_pattern_match. split.
    + unfold begins_with_time_frame. destruct s as [| c rest]; [discriminate |].
      intro H. apply orb_true_iff in H as [H | H].
      * apply Ascii.eqb_eq in H. subst c. exists "p", rest. split; reflexivity.
      * apply andb_true_iff in H as [Hn Hd]. apply Ascii.eqb_eq in Hn. subst c.
        destruct rest as [| d r]; [discriminate |].
        exists (String "n" (String d "")), r. split; [reflexivity |].
        unfold time_frame_exact, Str.forall_chars.
        cbn [String.length Nat.leb list_ascii_of_string forallb].
        rewrite Hd. apply orb_true_r.
    + intros (p & q & -> & H). apply begins_with_time_frame_app.
      apply (time_frame_exact_begins p H).
Qed.

(** X13: in the URL that [_generate_url] builds for ["competitions"] and
    ["fixtures"], whatever the keys and values of the mapping contain, there
    is exactly one [=] per parameter, one [&] between two parameters, one [?]
    when there is a parameter and none otherwise, and no [#]: a value cannot
    add a parameter, a second query or a fragment. *)
Theorem X13_values_cannot_add_parameters (self : Football) (d : dict string) :
  forall root : string,
    root = "competitions" \/ root = "fixtures" ->
    exists u,
      _generate_url self root (Dict d) = inr u
      /\ count_char "=" u = List.length d
      /\ count_char "&" u = pred (List.length d)
      /\ count_char "?" u = (if Nat.eqb (List.length d) 0 then 0 else 1)
      /\ count_char "#" u = 0.
Proof.
  intros root Hroot. rewrite generate_url_root by exact Hroot.
  eexists. split; [reflexivity |].
  destruct (count_urlencode d) as (CE & CA & CH & CQ).
  assert (P : forall c, Str.contains c "=&#?" = true ->
                        count_char c (API_URL ++ root ++ "/") = 0).
  { intros c Hc. apply delimiter_cases in Hc as [-> | [-> | [-> | ->]]];
      destruct Hroot; subst root; reflexivity. }
  assert (E : API_URL ++ root ++ "/" ++ query_string d
              = (API_URL ++ root ++ "/") ++ query_string d)
    by (rewrite !StrFacts.append_assoc; reflexivity).
  rewrite E.
  rewrite (count_char_app "=" (API_URL ++ root ++ "/")),
    (count_char_app "&" (API_URL ++ root ++ "/")),
    (count_char_app "?" (API_URL ++ root ++ "/")),
    (count_char_app "#" (API_URL ++ root ++ "/")).
  rewrite !P by reflexivity.
  destruct d as [| kv d]; [repeat split |].
  cbn [query_string].
  change (count_char "=" ("?" ++ UrlLib.urlencode (kv :: d)))
    with (count_char "=" (UrlLib.urlencode (kv :: d))).
  change (count_char "&" ("?" ++ UrlLib.urlencode (kv :: d)))
    with (count_char "&" (UrlLib.urlencode (kv :: d))).
  change (count_char "#" ("?" ++ UrlLib.urlencode (kv :: d)))
    with (count_char "#" (UrlLib.urlencode (kv :: d))).
  change (count_char "?" ("?" ++ UrlLib.urlencode (kv :: d)))
    with (S (count_char "?" (UrlLib.urlencode (kv :: d)))).
  rewrite CE, CA, CH, CQ. repeat split.
Qed.

Lemma X13_values_cannot_add_parameters_witness :
  exists u,
    _generate_url (init PyNone) "competitions" (Dict [("season", "2019&admin=1#top")])
    = inr u
    /\ count_char "=" u = 1 /\ count_char "&" u = 0
    /\ count_char "?" u = 1 /\ count_char "#" u = 0.
Proof.
  exact (X13_values_cannot_add_parameters (init PyNone) [("season", "2019&admin=1#top")]
           "competitions" (or_introl eq_refl)).
Defined.

(** X14: with a team identifier whose text is a plain segment, a season of
    exactly four digits, a time frame that is [p] or [n] with one or two
    digits from 1 to 9, and the venue ["home"] or ["away"], [team_fixtures]
    issues its one GET to
    [teams/<id>/fixtures?season=<season>&timeFrame=<time frame>&venue=<venue>]
    under the base URL, each value written as it was given. *)
Theorem X14_team_fixtures_url (self : Football) (team_id season : PyValue)
    (t v : string) (st : State) :
  segment (py_str team_id) = true ->
  four_digits (py_str season) = true ->
  time_frame_exact t = true ->
  v = "home" \/ v = "away" ->
  team_fixtures self team_id season (PyStr t) (PyStr v) st
  = one_get self
      ("http://api.football-data.org/v1/teams/" ++ py_str team_id
       ++ "/fixtures?season=" ++ py_str season
       ++ "&timeFrame=" ++ t ++ "&venue=" ++ v) st.
Proof.
  intros S F Ht Hv.
  destruct (four_digits_passes season F) as (Ts & Ps & Qs).
  pose proof (passes_time_frame_exact t Ht) as Pt.
  destruct (time_frame_exact_begins t Ht) as [_ Tt].
  assert (Pv : venue_passes (PyStr v) = true) by (destruct Hv; subst; reflexivity).
  assert (Tv : truthy (PyStr v) = true) by (destruct Hv; subst; reflexivity).
  assert (Qv : UrlLib.quote_plus v = v) by (destruct Hv; subst; reflexivity).
  destruct (team_fixtures_passes self team_id season (PyStr t) (PyStr v) st Ps Pt Pv)
    as (u & Hu & ->).
  same_url Hu (action3_url self "teams" (py_str team_id) "fixtures"
                 (param "season" season ++ param "timeFrame" (PyStr t)
                  ++ param "venue" (PyStr v)) eq_refl S eq_refl).
  rewrite (param_truthy "season" season Ts), (param_truthy "timeFrame" (PyStr t) Tt),
    (param_truthy "venue" (PyStr v) Tv).
  cbn [app query_string py_str]. rewrite !urlencode_cons. cbn [fst snd].
  rewrite Qs, (time_frame_exact_safe t Ht), Qv.
  change (UrlLib.quote_plus "season") with "season".
  change (UrlLib.quote_plus "timeFrame") with "timeFrame".
  change (UrlLib.quote_plus "venue") with "venue".
  rewrite StrFacts.append_nil_r. reflexivity.
Qed.

Lemma X14_team_fixtures_url_witness :
  let self := init (PyStr "key") in
  let st := imported null_service [] in
  segment (py_str (PyInt 66)) = true
  /\ four_digits (py_str (PyStr "2017")) = true
  /\ time_frame_exact "n14" = true
  /\ team_fixtures self (PyInt 66) (PyStr "2017") (PyStr "n14") (PyStr "away") st
     = one_get self
         "http://api.football-data.org/v1/teams/66/fixtures?season=2017&timeFrame=n14&venue=away"
         st.
Proof.
  cbv zeta. split; [reflexivity |]. split; [reflexivity |]. split; [reflexivity |].
  exact (X14_team_fixtures_url (init (PyStr "key")) (PyInt 66) (PyStr "2017") "n14" "away"
           (imported null_service []) eq_refl eq_refl eq_refl (or_intror eq_refl)).
Defined.

(** X15: the text of an identifier is written into the path as it is, with
    no escaping: when a [str] identifier is a plain segment followed by [?]
    and an encoded text, [fixture] and [team] request the URL of the segment
    with that text as its query string (and with no query string when the
    text is empty). *)
Theorem X15_identifier_is_not_escaped (self : Football) (x q : string) (st : State) :
  segment x = true ->
  Str.forall_chars encoded_char q = true ->
  fixture self (PyStr (x ++ "?" ++ q)) st
  = one_get self
      ("http://api.football-data.org/v1/fixtures/" ++ x
       ++ (if q =? "" then "" else "?" ++ q)) st
  /\ team self (PyStr (x ++ "?" ++ q)) st
     = one_get self
         ("http://api.football-data.org/v1/teams/" ++ x
          ++ (if q =? "" then "" else "?" ++ q)) st.
Proof.
  intros S Q.
  assert (U : forall a, segment a = true ->
                UrlLib.urljoin API_URL (a ++ "/" ++ x ++ "?" ++ q)
                = API_URL ++ a ++ "/" ++ x ++ (if q =? "" then "" else "?" ++ q)).
  { intros a Ha.
    pose proof (plain_path_segments [a; x] ltac:(discriminate) (segments2 a x Ha S)) as P.
    cbn [Str.join] in P.
    pose proof (UrlFacts.urljoin_path_query _ _ P Q) as E.
    rewrite !StrFacts.append_assoc in E. exact E. }
  split.
  - unfold fixture. apply send_one_get. cbn [py_str].
    rewrite (generate_url_falsy self _ PyNone eq_refl).
    rewrite generate_url_plain by reflexivity.
    f_equal. exact (U "fixtures" eq_refl).
  - unfold team. apply send_one_get. cbn [py_str].
    rewrite (generate_url_falsy self _ PyNone eq_refl).
    rewrite generate_url_plain by reflexivity.
    f_equal. exact (U "teams" eq_refl).
Qed.

Lemma X15_identifier_is_not_escaped_witness :
  let self := init (PyStr "key") in
  let st := imported null_service [] in
  segment "66" = true
  /\ Str.forall_chars encoded_char "season=2017" = true
  /\ team self (PyStr "66?season=2017") st
     = one_get self "http://api.football-data.org/v1/teams/66?season=2017" st.
Proof.
  cbv zeta. split; [reflexivity |]. split; [reflexivity |].
  exact (proj2 (X15_identifier_is_not_escaped (init (PyStr "key")) "66" "season=2017"
                  (imported null_service []) eq_refl eq_refl)).
Defined.
